(** * Android ADB MCP server: command orchestration and device resolution

    A shallow embedding of [src/android_adb_mcp_server/main.py].

    Conventions of the embedding.
    - A Python [str] is a Rocq [string]; its characters are the code points
      of the text (code points above 255 are outside the model).
    - Every [raise Exception(msg)] is the value [Exception msg]; all [except]
      clauses of the program are [except Exception] and only ever read
      [str(e)], so the message is all an exception carries.
    - Everything the program obtains from outside (child processes, the image
      library, the clock, the directory tree) is a field of [Env]; what the
      program changes (the files it creates and removes, the child processes
      it has started) is the state [World], threaded through the monad [M].
    - Paths follow the POSIX flavour of [os.path] and [pathlib]. *)

From stdpp Require Import gmap strings list.
From Stdlib Require Import ZArith Ascii String DecimalString Lia.

Open Scope string_scope.

(** ** Python [str] operations used by the program *)

Module PyStr.

(** [str.isspace] on one character, for code points below 256. *)
Definition is_space (c : ascii) : bool :=
  let n := nat_of_ascii c in
  ((9 <=? n)%nat && (n <=? 13)%nat) || ((28 <=? n)%nat && (n <=? 32)%nat)
  || (n =? 133)%nat || (n =? 160)%nat.

Definition is_empty (s : string) : bool :=
  match s with EmptyString => true | String _ _ => false end.

Fixpoint lstrip (s : string) : string :=
  match s with
  | EmptyString => EmptyString
  | String c s' => if is_space c then lstrip s' else s
  end.

Fixpoint rstrip (s : string) : string :=
  match s with
  | EmptyString => EmptyString
  | String c s' =>
      let r := rstrip s' in
      if is_space c && is_empty r then EmptyString else String c r
  end.

(** [s.strip()] *)
Definition strip (s : string) : string := lstrip (rstrip s).

(** [s.split(sep)] for a one-character separator: never the empty list. *)
Fixpoint split_on (sep : ascii) (s : string) : list string :=
  match s with
  | EmptyString => [EmptyString]
  | String c s' =>
      if Ascii.eqb c sep then EmptyString :: split_on sep s'
      else match split_on sep s' with
           | h :: t => String c h :: t
           | [] => [String c EmptyString]
           end
  end.

Fixpoint split_ws_from (cur : string) (s : string) : list string :=
  match s with
  | EmptyString => if is_empty cur then [] else [cur]
  | String c s' =>
      if is_space c
      then (if is_empty cur then split_ws_from EmptyString s'
            else cur :: split_ws_from EmptyString s')
      else split_ws_from (cur ++ String c EmptyString) s'
  end.

(** [s.split()]: the maximal runs of non-blank characters. *)
Definition split_ws (s : string) : list string := split_ws_from EmptyString s.

(** [sub in s] *)
Fixpoint contains (sub s : string) : bool :=
  String.prefix sub s
  || match s with
     | EmptyString => false
     | String _ s' => contains sub s'
     end.

(** [s.startswith(p)] *)
Definition startswith (s p : string) : bool := String.prefix p s.

Definition lower_char (c : ascii) : ascii :=
  let n := nat_of_ascii c in
  if ((65 <=? n)%nat && (n <=? 90)%nat)
     || ((192 <=? n)%nat && (n <=? 222)%nat && negb (n =? 215)%nat)
  then ascii_of_nat (n + 32) else c.

(** [s.lower()] *)
Fixpoint lower (s : string) : string :=
  match s with
  | EmptyString => EmptyString
  | String c s' => String (lower_char c) (lower s')
  end.

Definition upper_char (c : ascii) : ascii :=
  let n := nat_of_ascii c in
  if ((97 <=? n)%nat && (n <=? 122)%nat)
     || ((224 <=? n)%nat && (n <=? 254)%nat && negb (n =? 247)%nat)
  then ascii_of_nat (n - 32) else c.

(** [s.upper()], on the characters whose upper case is one code point below 256 *)
Fixpoint upper (s : string) : string :=
  match s with
  | EmptyString => EmptyString
  | String c s' => String (upper_char c) (upper s')
  end.

(** [s[n:]] *)
Fixpoint drop (n : nat) (s : string) : string :=
  match n, s with
  | O, _ => s
  | S _, EmptyString => EmptyString
  | S k, String _ s' => drop k s'
  end.

(** The scan of [str.replace]: [skip] characters of a match just replaced
    are still to be passed over. *)
Fixpoint replace_from (old new : string) (skip : nat) (s : string) : string :=
  match s with
  | EmptyString => EmptyString
  | String c s' =>
      match skip with
      | S k => replace_from old new k s'
      | O =>
          if String.prefix old s
          then new ++ replace_from old new (String.length old - 1) s'
          else String c (replace_from old new 0 s')
      end
  end.

Fixpoint intersperse (new s : string) : string :=
  match s with
  | EmptyString => new
  | String c s' => new ++ String c (intersperse new s')
  end.

(** [s.replace(old, new)]: every occurrence, left to right, not overlapping;
    an empty [old] matches before every character and at the end. *)
Definition replace (s old new : string) : string :=
  if is_empty old then intersperse new s else replace_from old new 0 s.

(** [sep.join(l)] *)
Fixpoint join (sep : string) (l : list string) : string :=
  match l with
  | [] => EmptyString
  | [x] => x
  | x :: l' => x ++ sep ++ join sep l'
  end.

(** [str(n)] for an [int] *)
Definition of_Z (z : Z) : string := NilZero.string_of_int (Z.to_int z).

End PyStr.

(** ** [os.path] and [pathlib], POSIX flavour *)

Module Posix.

Definition slash : ascii := "/"%char.

Fixpoint lstrip_slash (s : string) : string :=
  match s with
  | EmptyString => EmptyString
  | String c s' => if Ascii.eqb c slash then lstrip_slash s' else s
  end.

Fixpoint rstrip_slash (s : string) : string :=
  match s with
  | EmptyString => EmptyString
  | String c s' =>
      let r := rstrip_slash s' in
      if Ascii.eqb c slash && PyStr.is_empty r then EmptyString else String c r
  end.

Fixpoint has_slash (s : string) : bool :=
  match s with
  | EmptyString => false
  | String c s' => Ascii.eqb c slash || has_slash s'
  end.

Fixpoint endswith_slash (s : string) : bool :=
  match s with
  | EmptyString => false
  | String c EmptyString => Ascii.eqb c slash
  | String _ s' => endswith_slash s'
  end.

(** [os.path.join(a, b)] *)
Definition join (a b : string) : string :=
  if PyStr.startswith b "/" then b
  else if PyStr.is_empty a || endswith_slash a then a ++ b
  else a ++ "/" ++ b.

(** [p[:p.rfind('/') + 1]] *)
Fixpoint head_of (p : string) : string :=
  match p with
  | EmptyString => EmptyString
  | String c p' => if has_slash p then String c (head_of p') else EmptyString
  end.

(** [os.path.dirname(p)] *)
Definition dirname (p : string) : string :=
  let head := head_of p in
  if PyStr.is_empty (lstrip_slash head) then head else rstrip_slash head.

(** A [pathlib.PurePosixPath]: its root (empty, one slash or two) and the
    names after it. *)
Record Path := mkPath { root : string; names : list string }.

Definition keep_name (x : string) : bool :=
  negb (PyStr.is_empty x) && negb (String.eqb x ".").

(** [splitroot]: exactly two leading slashes are kept, any other number
    of them is one. *)
Definition splitroot (s : string) : string * string :=
  match s with
  | String c _ =>
      if Ascii.eqb c slash then
        let rel := lstrip_slash s in
        (if (String.length s - String.length rel =? 2)%nat then "//" else "/", rel)
      else (EmptyString, s)
  | EmptyString => (EmptyString, s)
  end.

(** [Path(s)] *)
Definition of_str (s : string) : Path :=
  let '(r, rel) := splitroot s in
  mkPath r (List.filter keep_name (PyStr.split_on slash rel)).

(** [str(p)] *)
Definition to_str (p : Path) : string :=
  let s := root p ++ PyStr.join "/" (names p) in
  if PyStr.is_empty s then "." else s.

(** [p.is_absolute()] *)
Definition is_absolute (p : Path) : bool := negb (PyStr.is_empty (root p)).

(** [p / q] *)
Definition joinpath (p q : Path) : Path :=
  if is_absolute q then q else mkPath (root p) (names p ++ names q).

End Posix.

(** ** Values, exceptions and the outside world *)

(** The double quote and the line feed, as one-character strings. *)
Definition dq : string := String "034"%char EmptyString.
Definition nl : string := String "010"%char EmptyString.

(** A value of an argument bag ([Dict[str, Any]]): [None], a [str], or any
    other object, of which the program can only observe the type name (in an
    [AttributeError]), the truth value and the text [str(v)]. *)
Inductive pyval :=
| PNone
| PStr (s : string)
| PObj (tyname : string) (truth : bool) (text : string).

(** [bool(v)] *)
Definition truthy (v : pyval) : bool :=
  match v with
  | PNone => false
  | PStr s => negb (PyStr.is_empty s)
  | PObj _ b _ => b
  end.

(** [str(v)], as an f-string formats [v] *)
Definition py_str (v : pyval) : string :=
  match v with
  | PNone => "None"
  | PStr s => s
  | PObj _ _ t => t
  end.

(** [isinstance(v, str)] *)
Definition is_str (v : pyval) : bool :=
  match v with PStr _ => true | _ => false end.

(** [s == v] for a [str] [s]: an object that is not a [str] never equals one. *)
Definition str_eq (s : string) (v : pyval) : bool :=
  match v with PStr t => String.eqb s t | _ => false end.

Definition type_name (v : pyval) : string :=
  match v with
  | PNone => "NoneType"
  | PStr _ => "str"
  | PObj ty _ _ => ty
  end.

Inductive exn := Exception (msg : string).

(** [str(e)] *)
Definition str_exn (e : exn) : string := let 'Exception m := e in m.

(** The outcome of [bytes.decode('utf-8')] on an output stream. *)
Inductive decoded := Text (s : string) | Undecodable (why : string).

(** What [create_subprocess_shell] followed by [communicate] yields: the
    spawn raises, or the child exits with a status and two streams. *)
Inductive spawn_result :=
| SpawnFailed (why : string)
| Exited (returncode : Z) (stdout stderr : decoded).

(** What [img.save] does: it writes the output, or raises, in which case a
    partial output may or may not be left behind. *)
Inductive pil_result := Saved | SaveFailed (why : string) (output_left : bool).

Record Env := mkEnv {
  (** the directory [Path.home()] is built from *)
  env_home : string;
  (** [tempfile.gettempdir()] *)
  env_tempdir : string;
  (** [sys.platform] *)
  env_platform : string;
  (** [int(loop.time() * 1000)] at the n-th reading of the clock *)
  env_clock_ms : nat -> Z;
  (** the child process for a command line, given the command lines run so far *)
  env_spawn : list string -> string -> spawn_result;
  (** whether the shell created the target of [cmd > "path"] *)
  env_redirects : list string -> string -> bool;
  (** [Image.open(input)] then [img.save(output, format)] *)
  env_pil : string -> string -> string -> pil_result;
  (** [os.makedirs(dir, exist_ok=True)]: [Some why] when it raises *)
  env_makedirs : string -> option string;
  (** whether a new file at this path can be opened and written *)
  env_can_write : string -> bool;
  (** [os.path.isdir] *)
  env_isdir : string -> bool
}.

Record World := mkWorld {
  (** the regular files on disk *)
  files : gset string;
  (** the command lines handed to the shell so far, oldest first *)
  spawned : list string;
  (** how often the clock has been read *)
  clock_reads : nat
}.

Inductive outcome (A : Type) := Returned (a : A) | Raised (e : exn).
Arguments Returned {A} a.
Arguments Raised {A} e.

(** A computation: it reads and changes the world and returns or raises. *)
Definition M (A : Type) : Type := World -> outcome A * World.

Definition ret {A} (a : A) : M A := fun w => (Returned a, w).

Definition raise {A} (e : exn) : M A := fun w => (Raised e, w).

Definition bind {A B} (m : M A) (k : A -> M B) : M B :=
  fun w => match m w with
           | (Returned a, w') => k a w'
           | (Raised e, w') => (Raised e, w')
           end.

(** [try: m except Exception as e: h e] *)
Definition try_except {A} (m : M A) (h : exn -> M A) : M A :=
  fun w => match m w with
           | (Returned a, w') => (Returned a, w')
           | (Raised e, w') => h e w'
           end.

(** [try: m finally: f] *)
Definition try_finally {A} (m : M A) (f : M unit) : M A :=
  fun w => let '(r, w') := m w in
           match f w' with
           | (Returned _, w'') => (r, w'')
           | (Raised e, w'') => (Raised e, w'')
           end.

Definition get_world : M World := fun w => (Returned w, w).

Definition set_files (fs : gset string) : M unit :=
  fun w => (Returned tt, mkWorld fs (spawned w) (clock_reads w)).

Declare Scope py_scope.
Delimit Scope py_scope with py.
Notation "x <- m ;; k" := (bind m (fun x => k))
  (at level 100, m at next level, right associativity) : py_scope.
Notation "m ;;; k" := (bind m (fun _ => k))
  (at level 100, right associativity) : py_scope.
Open Scope py_scope.

(** [when b m]: [if b: m] *)
Definition when (b : bool) (m : M unit) : M unit := if b then m else ret tt.

Record TextContent := mkText { type : string; text : string }.

(** A device as [get_connected_devices] lists it: the keys [id] and [state]. *)
Record Device := mkDevice { dev_id : string; dev_state : string }.

Definition args_t : Type := gmap string pyval.

(** [args.get(k)] *)
Definition args_get (args : gmap string pyval) (k : string) : pyval :=
  match args !! k with Some v => v | None => PNone end.

(** [args.get(k, d)] *)
Definition args_get_default (args : gmap string pyval) (k : string) (d : pyval) : pyval :=
  match args !! k with Some v => v | None => d end.

(** [v.lower()]: an [AttributeError] unless [v] is a [str]. *)
Definition py_lower (v : pyval) : M string :=
  match v with
  | PStr s => ret (PyStr.lower s)
  | _ => raise (Exception ("'" ++ type_name v ++ "' object has no attribute 'lower'"))
  end.

(** ** JSON text of the two listings ([json.dumps(v, indent=2)]) *)

Module Json.

Definition hex_digit (n : nat) : string :=
  String.substring n 1 "0123456789abcdef".

Definition escape_char (c : ascii) : string :=
  let n := nat_of_ascii c in
  if (n =? 34)%nat then "\" ++ dq
  else if (n =? 92)%nat then "\\"
  else if (n =? 10)%nat then "\n"
  else if (n =? 13)%nat then "\r"
  else if (n =? 9)%nat then "\t"
  else if (n =? 8)%nat then "\b"
  else if (n =? 12)%nat then "\f"
  else if ((32 <=? n)%nat && (n <=? 126)%nat) then String c EmptyString
  else "\u00" ++ hex_digit (n / 16) ++ hex_digit (n mod 16).

Fixpoint escape (s : string) : string :=
  match s with
  | EmptyString => EmptyString
  | String c s' => escape_char c ++ escape s'
  end.

Definition of_string (s : string) : string := dq ++ escape s ++ dq.

(** A list whose items are already rendered, one level deep. *)
Definition of_items (items : list string) : string :=
  match items with
  | [] => "[]"
  | _ => "[" ++ nl ++ "  " ++ PyStr.join ("," ++ nl ++ "  ") items ++ nl ++ "]"
  end.

Definition of_strings (l : list string) : string :=
  of_items (List.map of_string l).

Definition of_device (d : Device) : string :=
  "{" ++ nl ++ "    " ++ of_string "id" ++ ": " ++ of_string (dev_id d) ++ "," ++ nl
  ++ "    " ++ of_string "state" ++ ": " ++ of_string (dev_state d) ++ nl ++ "  }".

Definition of_devices (l : list Device) : string :=
  of_items (List.map of_device l).

End Json.

(** ** [re.search(r'([a-zA-Z0-9_.]+/[a-zA-Z0-9_.]+)', s)] *)

Module Re.

(** The class [[a-zA-Z0-9_.]]. *)
Definition is_token_char (c : ascii) : bool :=
  let n := nat_of_ascii c in
  ((97 <=? n)%nat && (n <=? 122)%nat) || ((65 <=? n)%nat && (n <=? 90)%nat)
  || ((48 <=? n)%nat && (n <=? 57)%nat) || (n =? 95)%nat || (n =? 46)%nat.

Fixpoint take_token (s : string) : string :=
  match s with
  | EmptyString => EmptyString
  | String c s' => if is_token_char c then String c (take_token s') else EmptyString
  end.

(** [cur] is the run of token characters that ends where [s] starts. The
    leftmost match starts at the first run that a slash and a token
    character follow; both groups are greedy. *)
Fixpoint search_from (cur : string) (s : string) : option string :=
  match s with
  | EmptyString => None
  | String c s' =>
      if is_token_char c then search_from (cur ++ String c EmptyString) s'
      else if Ascii.eqb c "/"%char && negb (PyStr.is_empty cur) then
        let t := take_token s' in
        if PyStr.is_empty t then search_from EmptyString s'
        else Some (cur ++ "/" ++ t)
      else search_from EmptyString s'
  end.

(** [Some (m.group(1))], or [None] when nothing matches. *)
Definition search_component (s : string) : option string :=
  search_from EmptyString s.

End Re.

(** ** The program *)

Section Server.

Variable E : Env.

(** *** What the program asks of the operating system *)

(** [int(asyncio.get_event_loop().time() * 1000)] *)
Definition loop_time_ms : M Z :=
  fun w => (Returned (env_clock_ms E (clock_reads w)),
            mkWorld (files w) (spawned w) (S (clock_reads w))).

(** [create_subprocess_shell(cmd, ...)] and, where the program does so,
    [communicate()]. [target] is the file the command line redirects its
    output to, if it does. *)
Definition create_subprocess_shell (cmd : string) (target : option string)
  : M (Z * decoded * decoded) :=
  fun w =>
    let w' := mkWorld (files w) (spawned w ++ [cmd]) (clock_reads w) in
    match env_spawn E (spawned w) cmd with
    | SpawnFailed why => (Raised (Exception why), w')
    | Exited rc out err =>
        let fs := match target with
                  | Some p => if env_redirects E (spawned w) cmd
                              then {[ p ]} ∪ files w else files w
                  | None => files w
                  end in
        (Returned (rc, out, err), mkWorld fs (spawned w ++ [cmd]) (clock_reads w))
    end.

(** [b.decode('utf-8')] *)
Definition decode (b : decoded) : M string :=
  match b with
  | Text s => ret s
  | Undecodable why => raise (Exception why)
  end.

Definition no_such_file (p : string) : exn :=
  Exception ("[Errno 2] No such file or directory: '" ++ p ++ "'").

(** [os.path.exists(p)] *)
Definition os_path_exists (p : string) : M bool :=
  fun w => (Returned (bool_decide (p ∈ files w) || env_isdir E p), w).

(** [os.path.isdir(p)] *)
Definition os_path_isdir (p : string) : M bool := ret (env_isdir E p).

(** [os.unlink(p)] *)
Definition os_unlink (p : string) : M unit :=
  w <- get_world ;;
  if bool_decide (p ∈ files w) then set_files (files w ∖ {[ p ]})
  else raise (no_such_file p).

(** [os.rename(src, dst)] *)
Definition os_rename (src dst : string) : M unit :=
  w <- get_world ;;
  if bool_decide (src ∈ files w) then set_files ({[ dst ]} ∪ (files w ∖ {[ src ]}))
  else raise (no_such_file src).

(** [os.makedirs(d, exist_ok=True)] *)
Definition os_makedirs (d : string) : M unit :=
  match env_makedirs E d with
  | None => ret tt
  | Some why => raise (Exception why)
  end.

(** [with open(p, "w") as f: f.write(...)] *)
Definition write_file (p : string) : M unit :=
  if env_can_write E p then (w <- get_world ;; set_files ({[ p ]} ∪ files w))
  else raise (Exception ("[Errno 13] Permission denied: '" ++ p ++ "'")).

(** *** Bridge commands and connected devices *)

(** The command line [execute_adb_command] hands to the shell. *)
Definition full_command (command : string) (device_id : pyval) : string :=
  let device_flag := if truthy device_id then "-s " ++ py_str device_id ++ " " else "" in
  "adb " ++ device_flag ++ command.

Definition execute_adb_command (command : string) (device_id : pyval) : M string :=
  try_except
    (process <- create_subprocess_shell (full_command command device_id) None ;;
     let '(returncode, stdout, stderr) := process in
     (if negb (returncode =? 0)%Z then
        stderr_text <- decode stderr ;;
        let stderr_text := PyStr.strip stderr_text in
        when (negb (PyStr.is_empty stderr_text)
              && negb (PyStr.contains "Warning" stderr_text))
             (raise (Exception ("ADB command failed: " ++ stderr_text)))
      else ret tt) ;;;
     stdout_text <- decode stdout ;;
     ret (PyStr.strip stdout_text))
    (fun e => raise (Exception ("ADB command failed: " ++ str_exn e))).

(** The body of the loop of [get_connected_devices]. *)
Definition parse_device_line (line : string) : list Device :=
  match PyStr.split_ws (PyStr.strip line) with
  | i :: s :: _ => [mkDevice i s]
  | _ => []
  end.

Definition get_connected_devices : M (list Device) :=
  output <- execute_adb_command "devices" PNone ;;
  let lines := List.tl (PyStr.split_on "010"%char output) in
  ret (List.concat (List.map parse_device_line lines)).

Definition validate_device_id (device_id : pyval) : M pyval :=
  devices <- get_connected_devices ;;
  match devices with
  | [] => raise (Exception "No Android devices connected")
  | d0 :: rest =>
      if truthy device_id then
        if List.existsb (fun d => str_eq (dev_id d) device_id) devices
        then ret device_id
        else raise (Exception ("Device with ID " ++ dq ++ py_str device_id ++ dq ++ " not found"))
      else
        match rest with
        | _ :: _ => raise (Exception "Multiple devices connected. Please specify a device ID")
        | [] => ret (PStr (dev_id d0))
        end
  end.

(** [await validate_device_id(args.get("device_id")) if args.get("device_id") else None] *)
Definition device_of_args (args : gmap string pyval) : M pyval :=
  if truthy (args_get args "device_id")
  then validate_device_id (args_get args "device_id")
  else ret PNone.

(** *** Image files and local paths *)

Definition get_file_extension (format_name : string) : string :=
  "." ++ PyStr.lower format_name.

Definition create_temp_file_path (format_name : string) : M string :=
  let extension := get_file_extension format_name in
  t <- loop_time_ms ;;
  ret (Posix.join (env_tempdir E) ("adb-screenshot-" ++ PyStr.of_Z t ++ extension)).

Definition get_mime_type (format_name : string) : string :=
  "image/" ++ PyStr.lower format_name.

(** [with Image.open(input_path) as img: img.save(output_path, format=pil_format)] *)
Definition pil_convert (input_path output_path pil_format : string) : M unit :=
  w <- get_world ;;
  match env_pil E input_path output_path pil_format with
  | Saved => set_files ({[ output_path ]} ∪ files w)
  | SaveFailed why partial =>
      when partial (set_files ({[ output_path ]} ∪ files w)) ;;;
      raise (Exception why)
  end.

Definition convert_image_format (input_path output_path format_name : string) : M unit :=
  try_except
    (let normalized_format := PyStr.lower format_name in
     let output_dir := Posix.dirname output_path in
     os_makedirs output_dir ;;;
     let pil_format := if String.eqb normalized_format "jpg" then "JPEG"
                       else PyStr.upper normalized_format in
     pil_convert input_path output_path pil_format)
    (fun e => raise (Exception ("Failed to convert image: " ++ str_exn e))).

(** [Path.home()] *)
Definition Path_home : Posix.Path := Posix.of_str (env_home E).

Definition resolve_path (file_path : string) : string :=
  let path := Posix.of_str file_path in
  if Posix.is_absolute path then Posix.to_str path
  else if PyStr.startswith (Posix.to_str path) "~/" || String.eqb (Posix.to_str path) "~"
  then Posix.to_str (Posix.joinpath Path_home (Posix.of_str (PyStr.drop 2 (Posix.to_str path))))
  else Posix.to_str (Posix.joinpath Path_home path).

Definition is_directory_writable (dir_path : string) : M bool :=
  try_except
    (os_makedirs dir_path ;;;
     t <- loop_time_ms ;;
     let test_file := Posix.join dir_path (".write-test-" ++ PyStr.of_Z t) in
     write_file test_file ;;;
     os_unlink test_file ;;;
     ret true)
    (fun _ => ret false).

Definition copy_image_to_clipboard (image_path format_name : string) : M unit :=
  let platform := env_platform E in
  try_except
    (if String.eqb platform "darwin" then
       create_subprocess_shell
         ("osascript -e 'set the clipboard to (read (POSIX file " ++ dq ++ image_path
          ++ dq ++ ") as TIFF picture)'") None ;;; ret tt
     else if String.eqb platform "win32" then
       create_subprocess_shell
         ("powershell -command " ++ dq
          ++ "Add-Type -AssemblyName System.Windows.Forms; [System.Windows.Forms.Clipboard]::SetImage([System.Drawing.Image]::FromFile('"
          ++ image_path ++ "'))" ++ dq) None ;;; ret tt
     else if PyStr.startswith platform "linux" then
       create_subprocess_shell
         ("xclip -selection clipboard -t image/" ++ format_name ++ " -i " ++ dq
          ++ image_path ++ dq) None ;;; ret tt
     else raise (Exception ("Clipboard operations not supported on platform: " ++ platform)))
    (fun e => raise (Exception ("Failed to copy image to clipboard: " ++ str_exn e))).

(** *** The handlers of [AndroidAdbServer] *)

Definition one_text (t : string) : list TextContent := [mkText "text" t].

(** [args[k]] once [isinstance(args.get(k), str)] has been checked. *)
Definition args_str (args : gmap string pyval) (k : string) : string :=
  py_str (args_get args k).

Definition invalid_parameters (what : string) : exn :=
  Exception ("Invalid parameters: " ++ what).

Definition handle_adb_devices : M (list TextContent) :=
  devices <- get_connected_devices ;;
  ret (one_text (Json.of_devices devices)).

Definition handle_adb_shell (args : gmap string pyval) : M (list TextContent) :=
  if negb (is_str (args_get args "command"))
  then raise (invalid_parameters "command is required and must be a string")
  else
    device_id <- device_of_args args ;;
    output <- execute_adb_command ("shell " ++ args_str args "command") device_id ;;
    ret (one_text output).

Definition handle_adb_install (args : gmap string pyval) : M (list TextContent) :=
  if negb (is_str (args_get args "path"))
  then raise (invalid_parameters "path is required and must be a string")
  else
    device_id <- device_of_args args ;;
    let path := args_str args "path" in
    ex <- os_path_exists path ;;
    isd <- os_path_isdir path ;;
    let is_multiple := PyStr.contains "*" path || (ex && isd) in
    let command := if is_multiple then "install-multiple " ++ path else "install " ++ path in
    output <- execute_adb_command command device_id ;;
    ret (one_text output).

Definition handle_adb_uninstall (args : gmap string pyval) : M (list TextContent) :=
  if negb (is_str (args_get args "package_name"))
  then raise (invalid_parameters "package_name is required and must be a string")
  else
    device_id <- device_of_args args ;;
    output <- execute_adb_command ("uninstall " ++ args_str args "package_name") device_id ;;
    ret (one_text output).

(** One line of [pm list packages], as the comprehension treats it. *)
Definition package_of_line (line : string) : list string :=
  let l := PyStr.strip line in
  if negb (PyStr.is_empty l) && PyStr.startswith l "package:"
  then [PyStr.replace l "package:" ""] else [].

Definition handle_adb_list_packages (args : gmap string pyval) : M (list TextContent) :=
  device_id <- device_of_args args ;;
  filter_text <- (if truthy (args_get args "filter")
                  then (f <- py_lower (args_get_default args "filter" (PStr "")) ;; ret (Some f))
                  else ret None) ;;
  output <- execute_adb_command "shell pm list packages" device_id ;;
  let packages := List.concat (List.map package_of_line (PyStr.split_on "010"%char output)) in
  let packages :=
    match filter_text with
    | Some f => if negb (PyStr.is_empty f)
                then List.filter (fun pkg => PyStr.contains f (PyStr.lower pkg)) packages
                else packages
    | None => packages
    end in
  ret (one_text (Json.of_strings packages)).

Definition path_advice : string :=
  " Try using an absolute path or a path in your home directory.".

(** The directory of a local path is created and probed, as [adb_pull] and
    [take_screenshot_and_save] both do before they run the bridge. *)
Definition prepare_directory (dir : string) : M unit :=
  try_except (os_makedirs dir)
    (fun e => raise (Exception ("Failed to create directory: " ++ str_exn e))) ;;;
  ok <- is_directory_writable dir ;;
  when (negb ok)
    (raise (Exception ("Directory is not writable: " ++ dir ++ "." ++ path_advice))).

Definition handle_adb_pull (args : gmap string pyval) : M (list TextContent) :=
  if negb (is_str (args_get args "remote_path")) || negb (is_str (args_get args "local_path"))
  then raise (invalid_parameters "remote_path and local_path are required and must be strings")
  else
    device_id <- device_of_args args ;;
    let resolved_local_path := resolve_path (args_str args "local_path") in
    let local_dir := Posix.dirname resolved_local_path in
    prepare_directory local_dir ;;;
    try_except
      (output <- execute_adb_command
                   ("pull " ++ dq ++ args_str args "remote_path" ++ dq ++ " " ++ dq
                    ++ resolved_local_path ++ dq) device_id ;;
       ret (one_text ("File pulled successfully to: " ++ resolved_local_path ++ nl ++ output)))
      (fun e => raise (Exception ("Failed to pull file: " ++ str_exn e ++ "." ++ path_advice))).

Definition handle_adb_push (args : gmap string pyval) : M (list TextContent) :=
  if negb (is_str (args_get args "local_path")) || negb (is_str (args_get args "remote_path"))
  then raise (invalid_parameters "local_path and remote_path are required and must be strings")
  else
    device_id <- device_of_args args ;;
    let resolved_local_path := resolve_path (args_str args "local_path") in
    ex <- os_path_exists resolved_local_path ;;
    if negb ex
    then raise (Exception ("Local file does not exist: " ++ resolved_local_path))
    else
      output <- execute_adb_command
                  ("push " ++ dq ++ resolved_local_path ++ dq ++ " " ++ dq
                   ++ args_str args "remote_path" ++ dq) device_id ;;
      ret (one_text output).

(** The launcher-intent trigger (first launch attempt). *)
Definition monkey_command (package_name : string) : string :=
  "shell monkey -p " ++ package_name ++ " -c android.intent.category.LAUNCHER 1".

(** The query for the component with the main entry action (second attempt). *)
Definition dumpsys_command (package_name : string) : string :=
  "shell dumpsys package " ++ package_name ++ " | grep -A 1 " ++ dq
  ++ "android.intent.action.MAIN" ++ dq.

Definition am_start_command (activity : string) : string :=
  "shell am start -n " ++ activity.

Definition handle_launch_app (args : gmap string pyval) : M (list TextContent) :=
  if negb (is_str (args_get args "package_name"))
  then raise (invalid_parameters "package_name is required and must be a string")
  else
    device_id <- device_of_args args ;;
    let package_name := args_str args "package_name" in
    try_except
      (output <- execute_adb_command (monkey_command package_name) device_id ;;
       ret (one_text ("App launched: " ++ package_name ++ nl ++ output)))
      (fun e =>
         try_except
           (package_info <- execute_adb_command (dumpsys_command package_name) device_id ;;
            match Re.search_component package_info with
            | Some activity =>
                output <- execute_adb_command (am_start_command activity) device_id ;;
                ret (one_text ("App launched with activity: " ++ activity ++ nl ++ output))
            | None => raise (Exception "Could not determine main activity")
            end)
           (fun _ => raise (Exception ("Failed to launch app: " ++ str_exn e)))).

(** The command line of the screen capture, written into [path] by the shell. *)
Definition screencap_command (device_id : pyval) (path : string) : string :=
  let device_flag := if truthy device_id then "-s " ++ py_str device_id ++ " " else "" in
  "adb " ++ device_flag ++ "exec-out screencap -p > " ++ dq ++ path ++ dq.

Definition handle_take_screenshot_and_save (args : gmap string pyval)
  : M (list TextContent) :=
  if negb (is_str (args_get args "output_path"))
  then raise (invalid_parameters "output_path is required and must be a string")
  else
    let device_id := args_get args "device_id" in
    (if truthy device_id then validate_device_id device_id ;;; ret tt else ret tt) ;;;
    let resolved_output_path := resolve_path (args_str args "output_path") in
    let output_dir := Posix.dirname resolved_output_path in
    prepare_directory output_dir ;;;
    try_except
      (process <- create_subprocess_shell
                    (screencap_command device_id resolved_output_path)
                    (Some resolved_output_path) ;;
       let '(returncode, _, _) := process in
       when (negb (returncode =? 0)%Z) (raise (Exception "Failed to take screenshot")) ;;;
       format_name <- py_lower (args_get_default args "format" (PStr "png")) ;;
       final_path <-
         (if negb (String.eqb format_name "png") then
            let temp_png_path := resolved_output_path in
            let format_output_path :=
              PyStr.replace resolved_output_path ".png" (get_file_extension format_name) in
            convert_image_format temp_png_path format_output_path format_name ;;;
            os_unlink temp_png_path ;;;
            ret format_output_path
          else ret resolved_output_path) ;;
       ret (one_text ("Screenshot saved to: " ++ final_path ++ " in " ++ format_name
                      ++ " format")))
      (fun e => raise (Exception ("Failed to take screenshot: " ++ str_exn e ++ "."
                                  ++ path_advice))).

Definition handle_take_screenshot_and_copy_to_clipboard (args : gmap string pyval)
  : M (list TextContent) :=
  device_id <- device_of_args args ;;
  format_name <- py_lower (args_get_default args "format" (PStr "png")) ;;
  temp_local_path <- create_temp_file_path format_name ;;
  try_finally
    (try_except
       (let temp_png_path := PyStr.replace temp_local_path ("." ++ format_name) ".png" in
        process <- create_subprocess_shell
                     (screencap_command device_id temp_png_path) (Some temp_png_path) ;;
        let '(returncode, _, _) := process in
        when (negb (returncode =? 0)%Z) (raise (Exception "Failed to take screenshot")) ;;;
        (if negb (String.eqb format_name "png") then
           convert_image_format temp_png_path temp_local_path format_name ;;;
           os_unlink temp_png_path
         else os_rename temp_png_path temp_local_path) ;;;
        copy_image_to_clipboard temp_local_path format_name ;;;
        ret (one_text ("Screenshot copied to clipboard in " ++ format_name ++ " format")))
       (fun e => raise (Exception ("Failed to take screenshot: " ++ str_exn e))))
    (ex <- os_path_exists temp_local_path ;;
     when ex (os_unlink temp_local_path)).

Definition handle_clear_app_data (args : gmap string pyval) : M (list TextContent) :=
  if negb (is_str (args_get args "package_name"))
  then raise (invalid_parameters "package_name is required and must be a string")
  else
    device_id <- device_of_args args ;;
    output <- execute_adb_command ("shell pm clear " ++ args_str args "package_name") device_id ;;
    ret (one_text ("App data cleared for " ++ args_str args "package_name" ++ nl ++ output)).

Definition handle_force_stop_app (args : gmap string pyval) : M (list TextContent) :=
  if negb (is_str (args_get args "package_name"))
  then raise (invalid_parameters "package_name is required and must be a string")
  else
    device_id <- device_of_args args ;;
    output <- execute_adb_command ("shell am force-stop " ++ args_str args "package_name")
                device_id ;;
    ret (one_text ("App force stopped: " ++ args_str args "package_name" ++ nl ++ output)).

Definition handle_go_to_home (args : gmap string pyval) : M (list TextContent) :=
  device_id <- device_of_args args ;;
  output <- execute_adb_command "shell input keyevent KEYCODE_HOME" device_id ;;
  ret (one_text ("Navigated to home screen" ++ nl ++ output)).

Definition handle_open_settings (args : gmap string pyval) : M (list TextContent) :=
  device_id <- device_of_args args ;;
  output <- execute_adb_command "shell am start -a android.settings.SETTINGS" device_id ;;
  ret (one_text ("Settings app opened" ++ nl ++ output)).

(** The relaunch that ends [clear_cache_and_restart] and [force_restart_app]:
    its failures become the text of [start_output]. *)
Definition restart_output (package_name : string) (device_id : pyval) : M string :=
  try_except
    (execute_adb_command (monkey_command package_name) device_id)
    (fun _ =>
       try_except
         (package_info <- execute_adb_command (dumpsys_command package_name) device_id ;;
          match Re.search_component package_info with
          | Some activity => execute_adb_command (am_start_command activity) device_id
          | None => ret "Could not determine main activity to restart"
          end)
         (fun e => ret ("Failed to restart app: " ++ str_exn e))).

(** [await asyncio.sleep(1)]: time passes, nothing else changes. *)
Definition asyncio_sleep : M unit := ret tt.

Definition handle_clear_cache_and_restart (args : gmap string pyval)
  : M (list TextContent) :=
  if negb (is_str (args_get args "package_name"))
  then raise (invalid_parameters "package_name is required and must be a string")
  else
    device_id <- device_of_args args ;;
    let package_name := args_str args "package_name" in
    clear_output <- execute_adb_command ("shell pm clear " ++ package_name) device_id ;;
    asyncio_sleep ;;;
    start_output <- restart_output package_name device_id ;;
    ret (one_text ("App data cleared and restarted: " ++ package_name ++ nl
                   ++ "Clear: " ++ clear_output ++ nl ++ "Start: " ++ start_output)).

Definition handle_force_restart_app (args : gmap string pyval) : M (list TextContent) :=
  if negb (is_str (args_get args "package_name"))
  then raise (invalid_parameters "package_name is required and must be a string")
  else
    device_id <- device_of_args args ;;
    let package_name := args_str args "package_name" in
    stop_output <- execute_adb_command ("shell am force-stop " ++ package_name) device_id ;;
    asyncio_sleep ;;;
    start_output <- restart_output package_name device_id ;;
    ret (one_text ("App force restarted: " ++ package_name ++ nl
                   ++ "Stop: " ++ stop_output ++ nl ++ "Start: " ++ start_output)).

(** The [if]/[elif] chain inside the [try] of [call_tool]. *)
Definition route (name : string) (arguments : gmap string pyval) : M (list TextContent) :=
  if String.eqb name "adb_devices" then handle_adb_devices
  else if String.eqb name "adb_shell" then handle_adb_shell arguments
  else if String.eqb name "adb_install" then handle_adb_install arguments
  else if String.eqb name "adb_uninstall" then handle_adb_uninstall arguments
  else if String.eqb name "adb_list_packages" then handle_adb_list_packages arguments
  else if String.eqb name "adb_pull" then handle_adb_pull arguments
  else if String.eqb name "adb_push" then handle_adb_push arguments
  else if String.eqb name "launch_app" then handle_launch_app arguments
  else if String.eqb name "take_screenshot_and_save"
  then handle_take_screenshot_and_save arguments
  else if String.eqb name "take_screenshot_and_copy_to_clipboard"
  then handle_take_screenshot_and_copy_to_clipboard arguments
  else if String.eqb name "clear_app_data" then handle_clear_app_data arguments
  else if String.eqb name "force_stop_app" then handle_force_stop_app arguments
  else if String.eqb name "go_to_home" then handle_go_to_home arguments
  else if String.eqb name "open_settings" then handle_open_settings arguments
  else if String.eqb name "clear_cache_and_restart"
  then handle_clear_cache_and_restart arguments
  else if String.eqb name "force_restart_app" then handle_force_restart_app arguments
  else raise (Exception ("Unknown tool: " ++ name)).

Definition call_tool (name : string) (arguments : gmap string pyval)
  : M (list TextContent) :=
  try_except (route name arguments)
    (fun e => ret (one_text ("Error: " ++ str_exn e))).

End Server.

(** ** The error classes of the specification

    The program raises plain [Exception]s; the classes of the specification
    are told apart by their messages. *)

Definition NoDeviceError : exn := Exception "No Android devices connected".

Definition DeviceNotFoundError (hint : pyval) : exn :=
  Exception ("Device with ID " ++ dq ++ py_str hint ++ dq ++ " not found").

Definition AmbiguousDeviceError : exn :=
  Exception "Multiple devices connected. Please specify a device ID".

Definition BridgeError (message : string) : exn :=
  Exception ("ADB command failed: " ++ message).

(** What becomes of the standard output once the exit status and the error
    stream have not failed the call of [execute_adb_command]. *)
Definition output_result (out : decoded) : outcome string :=
  match out with
  | Text o => Returned (PyStr.strip o)
  | Undecodable why => Raised (BridgeError why)
  end.

(** The world after one more command line has been handed to the shell. *)
Definition after_spawn (cmd : string) (w : World) : World :=
  mkWorld (files w) (spawned w ++ [cmd]) (clock_reads w).

(** [raises m w]: the computation ends in an exception. *)
Definition raises {A} (m : M A) (w : World) : Prop :=
  exists e, fst (m w) = Raised e.



(** [returns_text m]: whenever [m] returns, it returns one [TextContent] of
    type "text". *)
Definition returns_text (m : M (list TextContent)) : Prop :=
  forall w l, fst (m w) = Returned l -> exists t, l = one_text t.

(** ** The two launch attempts

    The first attempt is the launcher-intent trigger. The second asks for the
    component with the main entry action and starts it; it fails when the
    query fails, when no component reference can be read off its answer, or
    when starting the component fails. *)

Definition first_attempt_fails (E : Env) (package_name : string) (device_id : pyval)
    (w : World) : Prop :=
  raises (execute_adb_command E (monkey_command package_name) device_id) w.

Definition second_attempt_fails (E : Env) (package_name : string) (device_id : pyval)
    (w : World) : Prop :=
  match execute_adb_command E (dumpsys_command package_name) device_id w with
  | (Raised _, _) => True
  | (Returned package_info, w') =>
      match Re.search_component package_info with
      | None => True
      | Some activity => raises (execute_adb_command E (am_start_command activity) device_id) w'
      end
  end.

(** The note that [clear_cache_and_restart] puts after "Start: " when the
    relaunch failed. *)
Definition relaunch_failure_note (note : string) : Prop :=
  note = "Could not determine main activity to restart"
  \/ PyStr.startswith note "Failed to restart app: " = true.

(** ** Example environments

    Concrete outside worlds, on which the program can be run. *)

(** A quiet machine: every file operation succeeds and the child process of a
    command line is given by [respond]. *)
Definition bridge_env (respond : string -> spawn_result) : Env :=
  {| env_home := "/home/user";
     env_tempdir := "/tmp";
     env_platform := "linux";
     env_clock_ms := fun n => (52000 + Z.of_nat n)%Z;
     env_spawn := fun _ cmd => respond cmd;
     env_redirects := fun _ _ => true;
     env_pil := fun _ _ _ => Saved;
     env_makedirs := fun _ => None;
     env_can_write := fun _ => true;
     env_isdir := fun _ => false |}.

(** Nothing on disk, nothing run yet. *)
Definition fresh_world : World := mkWorld ∅ [] 0.

(** What [adb devices] prints with the given lines after its header. *)
Definition devices_output (lines : list string) : spawn_result :=
  Exited 0 (Text (PyStr.join nl ("List of devices attached" :: lines) ++ nl ++ nl)) (Text "").

(** The bridge rejects a command with this text on its error stream. *)
Definition rejected (stderr : string) : spawn_result :=
  Exited 1 (Text "") (Text stderr).

(** The bridge accepts a command and prints this. *)
Definition accepted (stdout : string) : spawn_result :=
  Exited 0 (Text stdout) (Text "").

(** One emulator is attached; every command but the listing is rejected
    because the device is offline. *)
Definition offline_env : Env :=
  bridge_env (fun cmd =>
    if String.eqb cmd "adb devices" then devices_output ["emulator-5554" ++ " " ++ "offline"]
    else rejected "error: device offline").

(** The bridge prints bytes that are not UTF-8 and exits with status zero. *)
Definition binary_env : Env :=
  bridge_env (fun _ =>
    Exited 0 (Undecodable "'utf-8' codec can't decode byte 0xff in position 0: invalid start byte")
           (Text "")).

(** The bridge exits non-zero with a warning line and an error line. *)
Definition warned_env : Env :=
  bridge_env (fun _ => rejected ("Warning: deprecated flag" ++ nl ++ "permission denied")).

(** The tabulator the bridge puts between a serial number and its state. *)
Definition tab : string := String "009"%char EmptyString.

(** One emulator is attached and every command is accepted. *)
Definition one_device_env : Env :=
  bridge_env (fun cmd =>
    if String.eqb cmd "adb devices" then devices_output ["emulator-5554" ++ tab ++ "device"]
    else accepted "").

(** An emulator and a phone are attached: the bridge accepts the commands
    that name a device and rejects the others. *)
Definition two_devices_env : Env :=
  bridge_env (fun cmd =>
    if String.eqb cmd "adb devices"
    then devices_output ["emulator-5554" ++ tab ++ "device"; "R58M123ABC" ++ tab ++ "device"]
    else if PyStr.startswith cmd "adb -s " then accepted ""
    else rejected "adb: more than one device/emulator").

(** Nothing is attached: the listing is its header alone, and the bridge
    rejects every other command. *)
Definition no_device_env : Env :=
  bridge_env (fun cmd =>
    if String.eqb cmd "adb devices" then devices_output []
    else rejected "adb: no devices/emulators found").

(** Argument bags of example calls. *)
Definition shell_ls_args : gmap string pyval := {[ "command" := PStr "ls" ]}.

Definition clear_app_args : gmap string pyval :=
  {[ "package_name" := PStr "com.example.app" ]}.

Definition clear_app_on_emulator_args : gmap string pyval :=
  {[ "package_name" := PStr "com.example.app"; "device_id" := PStr "emulator-5554" ]}.

(** The capture succeeds, and the image library then refuses to write the
    picture (as it does for a picture with an alpha channel and the JPEG
    format), leaving no output behind. *)
Definition broken_converter_env : Env :=
  {| env_home := "/home/user";
     env_tempdir := "/tmp";
     env_platform := "linux";
     env_clock_ms := fun n => (52000 + Z.of_nat n)%Z;
     env_spawn := fun _ _ => accepted "";
     env_redirects := fun _ _ => true;
     env_pil := fun _ _ _ => SaveFailed "cannot write mode RGBA as JPEG" false;
     env_makedirs := fun _ => None;
     env_can_write := fun _ => true;
     env_isdir := fun _ => false |}.

Definition jpg_clipboard_args : gmap string pyval := {[ "format" := PStr "jpg" ]}.

Definition save_as_jpg_args (output_path : string) : gmap string pyval :=
  {[ "output_path" := PStr output_path; "format" := PStr "jpg" ]}.

(** One emulator is attached; clearing works, the launcher trigger is
    rejected and the query for the main entry finds nothing. *)
Definition unlaunchable_env : Env :=
  bridge_env (fun cmd =>
    if String.eqb cmd "adb devices" then devices_output ["emulator-5554" ++ tab ++ "device"]
    else if PyStr.contains "shell monkey" cmd then rejected "** No activities found to run, monkey aborted."
    else if PyStr.contains "shell dumpsys" cmd then Exited 1 (Text "") (Text "")
    else accepted "Success").

(** ** The tool catalogue ([list_tools]) *)

(** One entry of the "properties" of an input schema. *)
Record Property := mkProperty {
  prop_key : string;
  prop_type : string;
  prop_description : string;
  prop_enum : list string
}.

(** A [Tool]: its name, its description and its input schema (the type of
    the schema, its properties and the keys it requires). *)
Record Tool := mkTool {
  tool_name : string;
  tool_description : string;
  schema_type : string;
  schema_properties : list Property;
  schema_required : list string
}.

Definition list_tools : list Tool :=
  [   mkTool "adb_devices"
     "Lists all connected Android devices and their connection status"
     "object"
     []
     [];
   mkTool "adb_shell"
     "Executes shell commands on a connected Android device"
     "object"
     [mkProperty "command" "string"
         "The shell command to execute"
         [];
      mkProperty "device_id" "string"
         "Specific device ID to target (if multiple devices are connected)"
         []]
     ["command"];
   mkTool "adb_install"
     "Installs APK files on a connected Android device"
     "object"
     [mkProperty "path" "string"
         "Path to APK file or directory containing APK files"
         [];
      mkProperty "device_id" "string"
         "Specific device ID to target"
         []]
     ["path"];
   mkTool "adb_uninstall"
     "Uninstalls an application from a connected Android device"
     "object"
     [mkProperty "package_name" "string"
         "Package name of the application to uninstall"
         [];
      mkProperty "device_id" "string"
         "Specific device ID to target"
         []]
     ["package_name"];
   mkTool "adb_list_packages"
     "Lists all installed packages on a connected Android device"
     "object"
     [mkProperty "device_id" "string"
         "Specific device ID to target"
         [];
      mkProperty "filter" "string"
         "Optional case-insensitive filter to search for specific packages"
         []]
     [];
   mkTool "adb_pull"
     "Pulls files from a connected Android device to the local system"
     "object"
     [mkProperty "remote_path" "string"
         "Path to the file or directory on the device"
         [];
      mkProperty "local_path" "string"
         "Path where to save the file(s) locally"
         [];
      mkProperty "device_id" "string"
         "Specific device ID to target"
         []]
     ["remote_path"; "local_path"];
   mkTool "adb_push"
     "Pushes files from the local system to a connected Android device"
     "object"
     [mkProperty "local_path" "string"
         "Path to the local file or directory"
         [];
      mkProperty "remote_path" "string"
         "Path on the device where to push the file(s)"
         [];
      mkProperty "device_id" "string"
         "Specific device ID to target"
         []]
     ["local_path"; "remote_path"];
   mkTool "launch_app"
     "Launches an application on a connected Android device"
     "object"
     [mkProperty "package_name" "string"
         "Package name of the application to launch"
         [];
      mkProperty "device_id" "string"
         "Specific device ID to target"
         []]
     ["package_name"];
   mkTool "take_screenshot_and_save"
     "Takes a screenshot and saves it to the local system"
     "object"
     [mkProperty "output_path" "string"
         "Path where to save the screenshot"
         [];
      mkProperty "device_id" "string"
         "Specific device ID to target"
         [];
      mkProperty "format" "string"
         "Image format (png, jpg, webp, etc.). Default is png"
         ["png"; "jpg"; "jpeg"; "webp"; "bmp"; "gif"]]
     ["output_path"];
   mkTool "take_screenshot_and_copy_to_clipboard"
     "Takes a screenshot and copies it to the clipboard"
     "object"
     [mkProperty "device_id" "string"
         "Specific device ID to target"
         [];
      mkProperty "format" "string"
         "Image format (png, jpg, webp, etc.). Default is png"
         ["png"; "jpg"; "jpeg"; "webp"; "bmp"; "gif"]]
     [];
   mkTool "clear_app_data"
     "Clears all data for a specific application on a connected Android device"
     "object"
     [mkProperty "package_name" "string"
         "Package name of the application to clear data for"
         [];
      mkProperty "device_id" "string"
         "Specific device ID to target"
         []]
     ["package_name"];
   mkTool "force_stop_app"
     "Force stops a running application on a connected Android device"
     "object"
     [mkProperty "package_name" "string"
         "Package name of the application to force stop"
         [];
      mkProperty "device_id" "string"
         "Specific device ID to target"
         []]
     ["package_name"];
   mkTool "go_to_home"
     "Navigates to the home screen on a connected Android device"
     "object"
     [mkProperty "device_id" "string"
         "Specific device ID to target"
         []]
     [];
   mkTool "open_settings"
     "Opens the Android Settings app on a connected Android device"
     "object"
     [mkProperty "device_id" "string"
         "Specific device ID to target"
         []]
     [];
   mkTool "clear_cache_and_restart"
     "Clears app data and automatically restarts the application"
     "object"
     [mkProperty "package_name" "string"
         "Package name of the application to clear and restart"
         [];
      mkProperty "device_id" "string"
         "Specific device ID to target"
         []]
     ["package_name"];
   mkTool "force_restart_app"
     "Force stops and then restarts an application on a connected Android device"
     "object"
     [mkProperty "package_name" "string"
         "Package name of the application to force restart"
         [];
      mkProperty "device_id" "string"
         "Specific device ID to target"
         []]
     ["package_name"]].

(** ** Predicates on computations *)

(** [raises_only P m]: every exception that leaves [m] satisfies [P]. *)
Definition raises_only {A} (P : exn -> Prop) (m : M A) : Prop :=
  forall w e, fst (m w) = Raised e -> P e.

(** The texts with which the messages of the exceptions raised by the
    handlers start, read off their [raise] statements: the handlers' own,
    those of [execute_adb_command] and [validate_device_id], the
    [AttributeError] of [.lower()] on a value that is not a [str], and the
    [OSError] of the [os.unlink] in a [finally]. *)
Definition failure_prefixes : list string :=
  [ "Invalid parameters: ";
    "ADB command failed: ";
    "No Android devices connected";
    "Device with ID ";
    "Failed to create directory: ";
    "Directory is not writable: ";
    "Failed to pull file: ";
    "Local file does not exist: ";
    "Failed to launch app: ";
    "Failed to take screenshot: ";
    "'";
    "[Errno " ].

Definition classified (e : exn) : Prop :=
  exists p, In p failure_prefixes /\ PyStr.startswith (str_exn e) p = true.

(** The names under which [list_tools] offers the tools. *)
Definition tool_names : list string := List.map tool_name list_tools.

(** ** Further example environments *)


(** The launcher trigger is rejected, the query for the main entry names a
    component, and starting that component works. *)
Definition fallback_launch_env : Env :=
  bridge_env (fun cmd =>
    if PyStr.contains "shell monkey" cmd
    then rejected "** No activities found to run, monkey aborted."
    else if PyStr.contains "shell dumpsys" cmd
    then accepted "        a1b2c3 com.example.app/.MainActivity filter 9f8e"
    else accepted "Starting: Intent { cmp=com.example.app/.MainActivity }").

(** ** Predicates on strings *)

(** Every character is of the class [[a-zA-Z0-9_.]]. *)
Fixpoint all_token (s : string) : bool :=
  match s with
  | EmptyString => true
  | String c s' => Re.is_token_char c && all_token s'
  end.

(** No character is white space. *)
Fixpoint blank_free (s : string) : bool :=
  match s with
  | EmptyString => true
  | String c s' => negb (PyStr.is_space c) && blank_free s'
  end.



Definition push_args : gmap string pyval :=
  {[ "local_path" := PStr "builds/app.apk"; "remote_path" := PStr "/sdcard/app.apk" ]}.

Definition pull_args : gmap string pyval :=
  {[ "remote_path" := PStr "/sdcard/log.txt"; "local_path" := PStr "logs/log.txt" ]}.

Definition save_png_args : gmap string pyval :=
  {[ "output_path" := PStr "shots/screen.png" ]}.

(** A machine on which no directory can be written. *)
Definition read_only_env : Env :=
  {| env_home := "/home/user";
     env_tempdir := "/tmp";
     env_platform := "linux";
     env_clock_ms := fun n => (52000 + Z.of_nat n)%Z;
     env_spawn := fun _ _ => accepted "";
     env_redirects := fun _ _ => true;
     env_pil := fun _ _ _ => Saved;
     env_makedirs := fun _ => None;
     env_can_write := fun _ => false;
     env_isdir := fun _ => false |}.

(** The character [c] does not occur in [s]. *)
Fixpoint lacks (c : ascii) (s : string) : bool :=
  match s with
  | EmptyString => true
  | String c' s' => negb (Ascii.eqb c' c) && lacks c s'
  end.

(** The line with which the bridge lists a device: its serial number, a
    tabulator, its state. *)
Definition device_line (d : Device) : string := dev_id d ++ tab ++ dev_state d.

(** A serial number or a state as the bridge prints it: not empty and free
    of white space. *)
Definition token_ok (x : string) : Prop := x <> "" /\ blank_free x = true.

Definition shell_on_phone_args : gmap string pyval :=
  {[ "command" := PStr "ls"; "device_id" := PStr "R58M123ABC" ]}.

(** ** The embedding at work

    The helper functions agree with Python on these inputs, and the handlers
    run on the example environments. *)

Example strip_example : PyStr.strip ("  a b " ++ nl ++ " ") = "a b".
Proof. reflexivity. Qed.

Example split_ws_example :
  PyStr.split_ws (" emulator-5554" ++ tab ++ "device ") = ["emulator-5554"; "device"].
Proof. reflexivity. Qed.

Example replace_example :
  PyStr.replace "/t/a.jpg.jpg" ".jpg" ".png" = "/t/a.png.png"
  /\ PyStr.replace "ababab" "aba" "c" = "cbab"
  /\ PyStr.replace "/t/shot.jpg" ".png" ".jpg" = "/t/shot.jpg".
Proof. repeat split; reflexivity. Qed.

Example pathlib_example :
  Posix.to_str (Posix.of_str "//./a//b/") = "//a/b"
  /\ Posix.to_str (Posix.of_str "///a/./b") = "/a/b"
  /\ Posix.to_str (Posix.of_str "") = "."
  /\ Posix.to_str (Posix.joinpath (Posix.of_str "/home/u") (Posix.of_str "x/../y")) = "/home/u/x/../y".
Proof. repeat split; reflexivity. Qed.

Example dirname_example :
  Posix.dirname "/a/b/c.png" = "/a/b" /\ Posix.dirname "c.png" = "" /\ Posix.dirname "//c" = "//".
Proof. repeat split; reflexivity. Qed.

Example search_component_example :
  Re.search_component "  12ab com.example.app/.MainActivity filter 9f"
  = Some "com.example.app/.MainActivity"
  /\ Re.search_component "a//b/c" = Some "b/c"
  /\ Re.search_component "no component here" = None.
Proof. repeat split; reflexivity. Qed.

Example get_connected_devices_example :
  fst (get_connected_devices two_devices_env fresh_world)
  = Returned [mkDevice "emulator-5554" "device"; mkDevice "R58M123ABC" "device"].
Proof. vm_compute. reflexivity. Qed.

Example adb_devices_example :
  fst (call_tool one_device_env "adb_devices" ∅ fresh_world)
  = Returned (one_text
      ("[" ++ nl ++ "  {" ++ nl ++ "    " ++ dq ++ "id" ++ dq ++ ": " ++ dq ++ "emulator-5554" ++ dq
       ++ "," ++ nl ++ "    " ++ dq ++ "state" ++ dq ++ ": " ++ dq ++ "device" ++ dq ++ nl
       ++ "  }" ++ nl ++ "]")).
Proof. vm_compute. reflexivity. Qed.

Example clipboard_png_example :
  let r := handle_take_screenshot_and_copy_to_clipboard
             (bridge_env (fun _ => accepted "")) ∅ fresh_world in
  fst r = Returned (one_text "Screenshot copied to clipboard in png format")
  /\ files (snd r) = ∅.
Proof. cbv zeta. split; vm_compute; reflexivity. Qed.

(** ** Properties of the bridge executor *)

Section Executor.

Variable E : Env.

Lemma execute_adb_command_text command device_id w rc out err :
  env_spawn E (spawned w) (full_command command device_id) = Exited rc (Text out) (Text err) ->
  execute_adb_command E command device_id w =
    (if negb (rc =? 0)%Z && negb (PyStr.is_empty (PyStr.strip err))
        && negb (PyStr.contains "Warning" (PyStr.strip err))
     then Raised (BridgeError ("ADB command failed: " ++ PyStr.strip err))
     else Returned (PyStr.strip out),
     after_spawn (full_command command device_id) w).
Proof.
  intros Hs.
  unfold execute_adb_command, try_except, bind, create_subprocess_shell.
  rewrite Hs. cbn.
  destruct (rc =? 0)%Z; cbn; [reflexivity|].
  destruct (PyStr.is_empty (PyStr.strip err)); cbn; [reflexivity|].
  destruct (PyStr.contains "Warning" (PyStr.strip err)); cbn; reflexivity.
Qed.

Lemma execute_adb_command_world command device_id w :
  snd (execute_adb_command E command device_id w)
  = after_spawn (full_command command device_id) w.
Proof.
  unfold execute_adb_command, try_except, bind, create_subprocess_shell.
  destruct (env_spawn E (spawned w) (full_command command device_id))
    as [why|rc out err]; cbn; [reflexivity|].
  destruct (rc =? 0)%Z; cbn.
  - destruct out; reflexivity.
  - destruct err as [err|why]; cbn; [|reflexivity].
    destruct (PyStr.is_empty (PyStr.strip err)); cbn;
      [destruct out; reflexivity|].
    destruct (PyStr.contains "Warning" (PyStr.strip err)); cbn;
      [destruct out; reflexivity|reflexivity].
Qed.

Lemma execute_adb_command_spawn_failed command device_id w why :
  env_spawn E (spawned w) (full_command command device_id) = SpawnFailed why ->
  fst (execute_adb_command E command device_id w) = Raised (BridgeError why).
Proof.
  intros Hs.
  unfold execute_adb_command, try_except, bind, create_subprocess_shell.
  rewrite Hs. reflexivity.
Qed.

Lemma execute_adb_command_zero_exit command device_id w out err :
  env_spawn E (spawned w) (full_command command device_id) = Exited 0 out err ->
  fst (execute_adb_command E command device_id w) = output_result out.
Proof.
  intros Hs.
  unfold execute_adb_command, try_except, bind, create_subprocess_shell.
  rewrite Hs. destruct out; reflexivity.
Qed.

Lemma execute_adb_command_stderr_undecodable command device_id w rc out why :
  env_spawn E (spawned w) (full_command command device_id) = Exited rc out (Undecodable why) ->
  rc <> 0%Z ->
  fst (execute_adb_command E command device_id w) = Raised (BridgeError why).
Proof.
  intros Hs Hrc.
  unfold execute_adb_command, try_except, bind, create_subprocess_shell.
  rewrite Hs. apply Z.eqb_neq in Hrc.
  cbv beta iota. rewrite Hrc. reflexivity.
Qed.

Lemma execute_adb_command_tolerated command device_id w rc out err :
  env_spawn E (spawned w) (full_command command device_id) = Exited rc out (Text err) ->
  PyStr.strip err = "" \/ PyStr.contains "Warning" (PyStr.strip err) = true ->
  fst (execute_adb_command E command device_id w) = output_result out.
Proof.
  intros Hs Htol.
  unfold execute_adb_command, try_except, bind, create_subprocess_shell, decode, when, ret.
  rewrite Hs. cbv beta iota.
  destruct (rc =? 0)%Z.
  - destruct out; reflexivity.
  - assert (Hc : negb (PyStr.is_empty (PyStr.strip err))
                 && negb (PyStr.contains "Warning" (PyStr.strip err)) = false).
    { destruct Htol as [-> | ->]; [reflexivity|apply andb_false_r]. }
    cbv beta iota zeta delta [negb]. cbv beta iota zeta delta [negb] in Hc.
    rewrite Hc. destruct out; reflexivity.
Qed.

(** The failure of a non-zero exit whose error stream is not tolerated,
    whatever the standard output holds. *)
Lemma execute_adb_command_rejected command device_id w rc out err :
  env_spawn E (spawned w) (full_command command device_id) = Exited rc out (Text err) ->
  rc <> 0%Z ->
  PyStr.strip err <> "" ->
  PyStr.contains "Warning" (PyStr.strip err) = false ->
  fst (execute_adb_command E command device_id w)
  = Raised (BridgeError ("ADB command failed: " ++ PyStr.strip err)).
Proof.
  intros Hs Hrc Hne Hw.
  unfold execute_adb_command, try_except, bind, create_subprocess_shell.
  rewrite Hs. cbn.
  apply Z.eqb_neq in Hrc. rewrite Hrc. cbn.
  destruct (PyStr.strip err) as [|c s] eqn:Hstrip; [congruence|].
  cbn [PyStr.is_empty negb andb]. rewrite Hw. reflexivity.
Qed.

(** Whatever goes wrong inside [execute_adb_command], what leaves it is a
    [BridgeError]. *)
Lemma execute_adb_command_raises_bridge_error command device_id w e :
  fst (execute_adb_command E command device_id w) = Raised e ->
  exists message, e = BridgeError message.
Proof.
  unfold execute_adb_command, try_except.
  destruct (bind _ _ w) as [[output|e'] w']; cbn.
  - discriminate.
  - intros H. inversion H. eexists. reflexivity.
Qed.

End Executor.

(** C10. When the bridge process exits non-zero and its error stream, trimmed,
    is non-empty and free of the word Warning, the exception that
    [execute_adb_command] raises carries the prefix twice: its message is
    "ADB command failed: ADB command failed: " followed by the trimmed error
    text, because the handler that wraps every failure also catches the
    classification error raised inside the same [try]. *)
Theorem execute_adb_command_double_prefix
    (E : Env) (command : string) (device_id : pyval) (w : World)
    (rc : Z) (out : decoded) (err : string) :
  env_spawn E (spawned w) (full_command command device_id) = Exited rc out (Text err) ->
  rc <> 0%Z ->
  PyStr.strip err <> "" ->
  PyStr.contains "Warning" (PyStr.strip err) = false ->
  fst (execute_adb_command E command device_id w)
  = Raised (Exception ("ADB command failed: ADB command failed: " ++ PyStr.strip err)).
Proof.
  intros Hs Hrc Hne Hw.
  exact (execute_adb_command_rejected E command device_id w rc out err Hs Hrc Hne Hw).
Qed.

Lemma execute_adb_command_double_prefix_witness :
  fst (execute_adb_command offline_env "shell ls" PNone fresh_world)
  = Raised (Exception "ADB command failed: ADB command failed: error: device offline").
Proof.
  apply (execute_adb_command_double_prefix offline_env "shell ls" PNone fresh_world
           1%Z (Text "") "error: device offline").
  - reflexivity.
  - lia.
  - vm_compute. discriminate.
  - vm_compute. reflexivity.
Defined.

(** The claim of C5 fails as it is stated: [execute_adb_command] also raises
    after a zero exit status, when the standard output is not UTF-8; and a
    non-zero exit whose error stream holds a warning line and, on a line of
    its own, "permission denied" does not raise, because the word Warning is
    looked for in the whole stream. *)
Lemma execute_adb_command_raises_after_zero_exit :
  (exists out err,
      env_spawn binary_env (spawned fresh_world) (full_command "shell cat /system/build.prop" PNone)
      = Exited 0 out err
      /\ raises (execute_adb_command binary_env "shell cat /system/build.prop" PNone) fresh_world)
  /\ (exists err,
         env_spawn warned_env (spawned fresh_world) (full_command "shell ls /data" PNone)
         = Exited 1 (Text "") (Text err)
         /\ In "permission denied" (PyStr.split_on "010"%char err)
         /\ fst (execute_adb_command warned_env "shell ls /data" PNone fresh_world) = Returned "").
Proof.
  split.
  - eexists _, _. split; [reflexivity|].
    eexists. vm_compute. reflexivity.
  - eexists. split; [reflexivity|]. split; [|vm_compute; reflexivity].
    vm_compute. right. left. reflexivity.
Qed.

(** C5, amended. [execute_adb_command] raises exactly when the child process
    cannot be started, or a stream it decodes is not UTF-8 (the error stream
    after a non-zero exit, the standard output otherwise), or the process
    exits non-zero and its error stream, trimmed, is non-empty and holds the
    word Warning nowhere (one test on the whole stream). In particular a
    non-zero exit whose error stream is "Warning: deprecated flag" does not
    raise and returns the trimmed output, and a non-zero exit whose error
    stream is "permission denied" raises a [BridgeError]. *)
Theorem execute_adb_command_raises_iff
    (E : Env) (command : string) (device_id : pyval) (w : World) :
  (raises (execute_adb_command E command device_id) w <->
   match env_spawn E (spawned w) (full_command command device_id) with
   | SpawnFailed _ => True
   | Exited rc out err =>
       (rc <> 0%Z /\
        match err with
        | Undecodable _ => True
        | Text e => PyStr.strip e <> "" /\ PyStr.contains "Warning" (PyStr.strip e) = false
        end)
       \/ (exists why, out = Undecodable why)
   end)
  /\ (forall rc out,
        env_spawn E (spawned w) (full_command command device_id)
        = Exited rc (Text out) (Text "Warning: deprecated flag") ->
        fst (execute_adb_command E command device_id w) = Returned (PyStr.strip out))
  /\ (forall rc out,
        env_spawn E (spawned w) (full_command command device_id)
        = Exited rc out (Text "permission denied") ->
        rc <> 0%Z ->
        fst (execute_adb_command E command device_id w)
        = Raised (BridgeError "ADB command failed: permission denied")).
Proof.
  split; [|split].
  - unfold raises.
    destruct (env_spawn E (spawned w) (full_command command device_id))
      as [why|rc out err] eqn:Hs.
    { rewrite (execute_adb_command_spawn_failed E _ _ _ _ Hs). split; eauto. }
    destruct (Z.eq_dec rc 0) as [->|Hrc].
    { rewrite (execute_adb_command_zero_exit E _ _ _ _ _ Hs).
      destruct out as [o|why]; cbn; split.
      - intros [e He]. discriminate He.
      - intros [[Hn _]|[why Hw]]; [congruence|discriminate Hw].
      - intros _. right. eauto.
      - intros _. eauto. }
    destruct err as [e|why].
    2:{ rewrite (execute_adb_command_stderr_undecodable E _ _ _ _ _ _ Hs Hrc).
        split; [intros _; left; split; [assumption|trivial] | eauto]. }
    destruct (String.eqb_spec (PyStr.strip e) "") as [Hempty|Hne].
    { rewrite (execute_adb_command_tolerated E _ _ _ _ _ _ Hs (or_introl Hempty)).
      destruct out as [o|why]; cbn; split.
      - intros [x Hx]. discriminate Hx.
      - intros [[_ [Hn _]]|[why Hw]]; [congruence|discriminate Hw].
      - intros _. right. eauto.
      - intros _. eauto. }
    destruct (PyStr.contains "Warning" (PyStr.strip e)) eqn:Hc.
    { rewrite (execute_adb_command_tolerated E _ _ _ _ _ _ Hs (or_intror Hc)).
      destruct out as [o|why]; cbn; split.
      - intros [x Hx]. discriminate Hx.
      - intros [[_ [_ Hn]]|[why Hw]]; [discriminate Hn|discriminate Hw].
      - intros _. right. eauto.
      - intros _. eauto. }
    rewrite (execute_adb_command_rejected E _ _ _ _ _ _ Hs Hrc Hne Hc).
    split; [intros _; left; auto | eauto].
  - intros rc out Hs.
    apply (execute_adb_command_tolerated E _ _ _ _ _ _ Hs).
    right. vm_compute. reflexivity.
  - intros rc out Hs Hrc.
    apply (execute_adb_command_rejected E command device_id w rc out _ Hs Hrc).
    + vm_compute. discriminate.
    + vm_compute. reflexivity.
Qed.

Lemma execute_adb_command_raises_iff_witness :
  fst (execute_adb_command offline_env "shell ls" (PStr "emulator-5554") fresh_world)
  = Raised (BridgeError "ADB command failed: error: device offline")
  /\ fst (execute_adb_command
            (bridge_env (fun _ => rejected "permission denied")) "shell ls" PNone fresh_world)
     = Raised (BridgeError "ADB command failed: permission denied")
  /\ fst (execute_adb_command
            (bridge_env (fun _ => Exited 1 (Text "done") (Text "Warning: deprecated flag")))
            "shell ls" PNone fresh_world)
     = Returned "done".
Proof.
  split; [|split].
  - vm_compute. reflexivity.
  - apply (proj2 (proj2 (execute_adb_command_raises_iff
             (bridge_env (fun _ => rejected "permission denied")) "shell ls" PNone fresh_world))
             1%Z (Text "")).
    + reflexivity.
    + lia.
  - apply (proj1 (proj2 (execute_adb_command_raises_iff
             (bridge_env (fun _ => Exited 1 (Text "done") (Text "Warning: deprecated flag")))
             "shell ls" PNone fresh_world)) 1%Z "done").
    reflexivity.
Defined.

(** ** Properties of device resolution *)

Lemma existsb_str_eq_iff (devices : list Device) (hint : pyval) :
  List.existsb (fun d => str_eq (dev_id d) hint) devices = true
  <-> exists d, In d devices /\ hint = PStr (dev_id d).
Proof.
  rewrite List.existsb_exists. split.
  - intros [d [Hin Heq]]. exists d. split; [assumption|].
    destruct hint as [|s|ty b t]; cbn in Heq; try discriminate Heq.
    apply String.eqb_eq in Heq. congruence.
  - intros [d [Hin ->]]. exists d. split; [assumption|].
    cbn. apply String.eqb_refl.
Qed.

(** The claim of C4 fails as it is stated: a hint that is the empty string is
    a given hint that no listed device carries, yet [validate_device_id] does
    not fail with [DeviceNotFoundError]; it treats the hint as absent and
    returns the only connected device. *)
Lemma validate_device_id_empty_hint :
  get_connected_devices one_device_env fresh_world
  = (Returned [mkDevice "emulator-5554" "device"], after_spawn "adb devices" fresh_world)
  /\ is_str (PStr "") = true
  /\ (forall d, In d [mkDevice "emulator-5554" "device"] -> PStr "" <> PStr (dev_id d))
  /\ fst (validate_device_id one_device_env (PStr "") fresh_world)
     = Returned (PStr "emulator-5554")
  /\ fst (validate_device_id one_device_env (PStr "") fresh_world)
     <> Raised (DeviceNotFoundError (PStr "")).
Proof.
  split; [vm_compute; reflexivity|].
  split; [reflexivity|].
  split.
  - intros d [<-|[]]. discriminate.
  - split; [vm_compute; reflexivity|].
    vm_compute. discriminate.
Qed.

(** C4, amended. Given the list of connected devices, [validate_device_id]
    fails with [NoDeviceError] when the list is empty. Otherwise a hint counts
    as given when it is truthy (a non-empty string): a given hint is returned
    unchanged when some listed device's identifier equals it exactly, and
    fails with [DeviceNotFoundError] when none does; without a given hint
    (none, or the empty string) it fails with [AmbiguousDeviceError] when
    more than one device is listed and returns the sole device's identifier
    when exactly one is. A failure of the listing itself is passed on. *)
Theorem validate_device_id_policy
    (E : Env) (hint : pyval) (w w' : World) (devices : list Device) :
  get_connected_devices E w = (Returned devices, w') ->
  let r := validate_device_id E hint w in
  snd r = w'
  /\ (devices = [] -> fst r = Raised NoDeviceError)
  /\ (devices <> [] -> truthy hint = true ->
      (exists d, In d devices /\ hint = PStr (dev_id d)) -> fst r = Returned hint)
  /\ (devices <> [] -> truthy hint = true ->
      (forall d, In d devices -> hint <> PStr (dev_id d)) ->
      fst r = Raised (DeviceNotFoundError hint))
  /\ (truthy hint = false -> (1 < List.length devices)%nat ->
      fst r = Raised AmbiguousDeviceError)
  /\ (truthy hint = false -> forall d, devices = [d] -> fst r = Returned (PStr (dev_id d))).
Proof.
  intros Hd r. subst r.
  unfold validate_device_id, bind. rewrite Hd.
  destruct devices as [|d0 rest].
  - cbn. repeat split; try congruence.
    intros _ Hlen. cbn in Hlen. lia.
  - destruct (truthy hint) eqn:Ht.
    + destruct (List.existsb (fun d => str_eq (dev_id d) hint) (d0 :: rest)) eqn:Hex.
      * apply existsb_str_eq_iff in Hex.
        cbn. repeat split; try congruence.
        intros _ _ Hno. destruct Hex as [d [Hin Heq]]. exfalso. exact (Hno d Hin Heq).
      * cbn. repeat split; try congruence.
        intros _ _ Hyes.
        pose proof (proj2 (existsb_str_eq_iff (d0 :: rest) hint) Hyes) as Hx. congruence.
    + destruct rest as [|d1 rest].
      * cbn. repeat split; try congruence.
        intros _ Hlen. cbn in Hlen. lia.
      * cbn. repeat split; try congruence.
Qed.

Lemma validate_device_id_policy_witness :
  fst (validate_device_id two_devices_env (PStr "R58M123ABC") fresh_world)
  = Returned (PStr "R58M123ABC")
  /\ fst (validate_device_id two_devices_env (PStr "r58m123abc") fresh_world)
     = Raised (DeviceNotFoundError (PStr "r58m123abc"))
  /\ fst (validate_device_id two_devices_env PNone fresh_world) = Raised AmbiguousDeviceError
  /\ fst (validate_device_id one_device_env PNone fresh_world) = Returned (PStr "emulator-5554")
  /\ fst (validate_device_id no_device_env (PStr "emulator-5554") fresh_world)
     = Raised NoDeviceError.
Proof.
  pose proof (validate_device_id_policy two_devices_env (PStr "R58M123ABC") fresh_world
                (after_spawn "adb devices" fresh_world)
                [mkDevice "emulator-5554" "device"; mkDevice "R58M123ABC" "device"]
                ltac:(vm_compute; reflexivity)) as (_ & _ & Hfound & _).
  pose proof (validate_device_id_policy two_devices_env (PStr "r58m123abc") fresh_world
                (after_spawn "adb devices" fresh_world)
                [mkDevice "emulator-5554" "device"; mkDevice "R58M123ABC" "device"]
                ltac:(vm_compute; reflexivity)) as (_ & _ & _ & Hmissing & _).
  pose proof (validate_device_id_policy two_devices_env PNone fresh_world
                (after_spawn "adb devices" fresh_world)
                [mkDevice "emulator-5554" "device"; mkDevice "R58M123ABC" "device"]
                ltac:(vm_compute; reflexivity)) as (_ & _ & _ & _ & Hmany & _).
  pose proof (validate_device_id_policy one_device_env PNone fresh_world
                (after_spawn "adb devices" fresh_world)
                [mkDevice "emulator-5554" "device"]
                ltac:(vm_compute; reflexivity)) as (_ & _ & _ & _ & _ & Hsole).
  pose proof (validate_device_id_policy no_device_env (PStr "emulator-5554") fresh_world
                (after_spawn "adb devices" fresh_world) []
                ltac:(vm_compute; reflexivity)) as (_ & Hnone & _).
  split; [|split; [|split; [|split]]].
  - apply Hfound; [discriminate|reflexivity|].
    eexists. split; [right; left; reflexivity|reflexivity].
  - apply Hmissing; [discriminate|reflexivity|].
    intros d [<-|[<-|[]]]; discriminate.
  - apply Hmany; [reflexivity|cbn; lia].
  - apply (Hsole eq_refl (mkDevice "emulator-5554" "device")). reflexivity.
  - apply Hnone. reflexivity.
Defined.

Lemma get_connected_devices_world (E : Env) (w : World) :
  snd (get_connected_devices E w) = after_spawn "adb devices" w.
Proof.
  unfold get_connected_devices, bind.
  pose proof (execute_adb_command_world E "devices" PNone w) as Hw.
  destruct (execute_adb_command E "devices" PNone w) as [[output|e] w1]; exact Hw.
Qed.

Lemma device_of_args_absent (E : Env) (args : gmap string pyval) (w : World) :
  truthy (args_get args "device_id") = false ->
  device_of_args E args w = (Returned PNone, w).
Proof. intros Ht. unfold device_of_args. rewrite Ht. reflexivity. Qed.

Lemma device_of_args_given (E : Env) (args : gmap string pyval) :
  truthy (args_get args "device_id") = true ->
  device_of_args E args = validate_device_id E (args_get args "device_id").
Proof. intros Ht. unfold device_of_args. rewrite Ht. reflexivity. Qed.

Lemma validate_device_id_no_devices (E : Env) (hint : pyval) (w w' : World) :
  get_connected_devices E w = (Returned [], w') ->
  validate_device_id E hint w = (Raised NoDeviceError, after_spawn "adb devices" w).
Proof.
  intros Hd. pose proof (get_connected_devices_world E w) as Hw.
  rewrite Hd in Hw. cbn in Hw. subst w'.
  unfold validate_device_id, bind. rewrite Hd. reflexivity.
Qed.

(** What a handler makes of the outcome of its one bridge command. *)
Lemma bind_execute_world {A} (E : Env) (command : string) (device_id : pyval)
    (k : string -> A) (w : World) :
  (output <- execute_adb_command E command device_id ;; ret (k output)) w
  = (match fst (execute_adb_command E command device_id w) with
     | Returned output => Returned (k output)
     | Raised e => Raised e
     end, after_spawn (full_command command device_id) w).
Proof.
  unfold bind, ret.
  pose proof (execute_adb_command_world E command device_id w) as Hw.
  destruct (execute_adb_command E command device_id w) as [[output|e] w1];
    cbn in *; subst w1; reflexivity.
Qed.

(** The claim of C2 fails as it is stated: invoked without a device
    identifier, [adb_shell] and [clear_app_data] never list the devices. With
    nothing attached, and with two devices attached, the only command line
    run is the operation's own, and the failure is the bridge's, neither
    [NoDeviceError] nor [AmbiguousDeviceError]. *)
Lemma operations_without_device_skip_resolution :
  let shell_args := shell_ls_args in
  let clear_args := clear_app_args in
  fst (get_connected_devices no_device_env fresh_world) = Returned []
  /\ handle_adb_shell no_device_env shell_args fresh_world
     = (Raised (BridgeError "ADB command failed: adb: no devices/emulators found"),
        after_spawn "adb shell ls" fresh_world)
  /\ fst (handle_adb_shell no_device_env shell_args fresh_world) <> Raised NoDeviceError
  /\ handle_clear_app_data no_device_env clear_args fresh_world
     = (Raised (BridgeError "ADB command failed: adb: no devices/emulators found"),
        after_spawn "adb shell pm clear com.example.app" fresh_world)
  /\ fst (get_connected_devices two_devices_env fresh_world)
     = Returned [mkDevice "emulator-5554" "device"; mkDevice "R58M123ABC" "device"]
  /\ handle_adb_shell two_devices_env shell_args fresh_world
     = (Raised (BridgeError "ADB command failed: adb: more than one device/emulator"),
        after_spawn "adb shell ls" fresh_world)
  /\ fst (handle_adb_shell two_devices_env shell_args fresh_world)
     <> Raised AmbiguousDeviceError.
Proof.
  cbv zeta.
  split; [vm_compute; reflexivity|].
  split; [vm_compute; reflexivity|].
  split; [vm_compute; discriminate|].
  split; [vm_compute; reflexivity|].
  split; [vm_compute; reflexivity|].
  split; [vm_compute; reflexivity|].
  vm_compute; discriminate.
Qed.

(** C2, amended. [adb_shell] and [clear_app_data] run the device-resolution
    policy only when they are given a truthy (non-empty) device identifier,
    and then before their bridge command: with zero connected devices they
    fail with [NoDeviceError] and the listing of the devices is the only
    command line that has been run. Invoked without a device identifier they
    skip the policy: the one command line they run is their own, without a
    device flag, and its outcome is theirs, however many devices are
    connected; they then fail neither with [NoDeviceError] nor with
    [AmbiguousDeviceError]. *)
Theorem resolution_runs_only_for_explicit_device
    (E : Env) (args : gmap string pyval) (w : World) :
  (truthy (args_get args "device_id") = false ->
   (is_str (args_get args "command") = true ->
    handle_adb_shell E args w
    = (match fst (execute_adb_command E ("shell " ++ args_str args "command") PNone w) with
       | Returned output => Returned (one_text output)
       | Raised e => Raised e
       end,
       after_spawn ("adb shell " ++ args_str args "command") w))
   /\ (is_str (args_get args "package_name") = true ->
       handle_clear_app_data E args w
       = (match fst (execute_adb_command E ("shell pm clear " ++ args_str args "package_name")
                       PNone w) with
          | Returned output =>
              Returned (one_text ("App data cleared for " ++ args_str args "package_name"
                                  ++ nl ++ output))
          | Raised e => Raised e
          end,
          after_spawn ("adb shell pm clear " ++ args_str args "package_name") w)))
  /\ (truthy (args_get args "device_id") = false ->
      fst (handle_adb_shell E args w) <> Raised NoDeviceError
      /\ fst (handle_adb_shell E args w) <> Raised AmbiguousDeviceError
      /\ fst (handle_clear_app_data E args w) <> Raised NoDeviceError
      /\ fst (handle_clear_app_data E args w) <> Raised AmbiguousDeviceError)
  /\ (truthy (args_get args "device_id") = true ->
      forall w', get_connected_devices E w = (Returned [], w') ->
      (is_str (args_get args "command") = true ->
       handle_adb_shell E args w = (Raised NoDeviceError, after_spawn "adb devices" w))
      /\ (is_str (args_get args "package_name") = true ->
          handle_clear_app_data E args w = (Raised NoDeviceError, after_spawn "adb devices" w))).
Proof.
  assert (Hshell : truthy (args_get args "device_id") = false ->
                   is_str (args_get args "command") = true ->
                   handle_adb_shell E args w
                   = (match fst (execute_adb_command E ("shell " ++ args_str args "command")
                                   PNone w) with
                      | Returned output => Returned (one_text output)
                      | Raised e => Raised e
                      end,
                      after_spawn ("adb shell " ++ args_str args "command") w)).
  { intros Hdev Hstr.
    unfold handle_adb_shell. rewrite Hstr. cbn [negb].
    unfold bind at 1. rewrite (device_of_args_absent E args w Hdev).
    apply (bind_execute_world E _ PNone one_text w). }
  assert (Hclear : truthy (args_get args "device_id") = false ->
                   is_str (args_get args "package_name") = true ->
                   handle_clear_app_data E args w
                   = (match fst (execute_adb_command E
                                   ("shell pm clear " ++ args_str args "package_name")
                                   PNone w) with
                      | Returned output =>
                          Returned (one_text ("App data cleared for "
                                              ++ args_str args "package_name" ++ nl ++ output))
                      | Raised e => Raised e
                      end,
                      after_spawn ("adb shell pm clear " ++ args_str args "package_name") w)).
  { intros Hdev Hstr.
    unfold handle_clear_app_data. rewrite Hstr. cbn [negb].
    unfold bind at 1. rewrite (device_of_args_absent E args w Hdev).
    apply (bind_execute_world E _ PNone
             (fun output => one_text ("App data cleared for "
                                      ++ args_str args "package_name" ++ nl ++ output)) w). }
  split; [|split].
  - intros Hdev. split; intros Hstr; [exact (Hshell Hdev Hstr)|exact (Hclear Hdev Hstr)].
  - intros Hdev.
    assert (Hs : forall e, fst (handle_adb_shell E args w) = Raised e ->
                           e = invalid_parameters "command is required and must be a string"
                           \/ exists message, e = BridgeError message).
    { intros e He.
      destruct (sumbool_of_bool (is_str (args_get args "command"))) as [Hstr|Hstr].
      - rewrite (Hshell Hdev Hstr) in He. cbn [fst] in He. right.
        destruct (fst (execute_adb_command E ("shell " ++ args_str args "command") PNone w))
          as [output|e'] eqn:Hx; [discriminate He|].
        inversion He; subst.
        exact (execute_adb_command_raises_bridge_error E _ _ _ _ Hx).
      - unfold handle_adb_shell in He. rewrite Hstr in He. cbn in He.
        inversion He. left. reflexivity. }
    assert (Hc : forall e, fst (handle_clear_app_data E args w) = Raised e ->
                           e = invalid_parameters "package_name is required and must be a string"
                           \/ exists message, e = BridgeError message).
    { intros e He.
      destruct (sumbool_of_bool (is_str (args_get args "package_name"))) as [Hstr|Hstr].
      - rewrite (Hclear Hdev Hstr) in He. cbn [fst] in He. right.
        destruct (fst (execute_adb_command E
                         ("shell pm clear " ++ args_str args "package_name") PNone w))
          as [output|e'] eqn:Hx; [discriminate He|].
        inversion He; subst.
        exact (execute_adb_command_raises_bridge_error E _ _ _ _ Hx).
      - unfold handle_clear_app_data in He. rewrite Hstr in He. cbn in He.
        inversion He. left. reflexivity. }
    repeat split; intros He.
    + destruct (Hs _ He) as [H|[m H]]; discriminate H.
    + destruct (Hs _ He) as [H|[m H]]; discriminate H.
    + destruct (Hc _ He) as [H|[m H]]; discriminate H.
    + destruct (Hc _ He) as [H|[m H]]; discriminate H.
  - intros Hdev w' Hnone. split; intros Hstr.
    + unfold handle_adb_shell. rewrite Hstr. cbn [negb].
      unfold bind at 1. rewrite (device_of_args_given E args Hdev).
      rewrite (validate_device_id_no_devices E _ w w' Hnone). reflexivity.
    + unfold handle_clear_app_data. rewrite Hstr. cbn [negb].
      unfold bind at 1. rewrite (device_of_args_given E args Hdev).
      rewrite (validate_device_id_no_devices E _ w w' Hnone). reflexivity.
Qed.

Lemma resolution_runs_only_for_explicit_device_witness :
  handle_adb_shell no_device_env shell_ls_args fresh_world
  = (Raised (BridgeError "ADB command failed: adb: no devices/emulators found"),
     after_spawn "adb shell ls" fresh_world)
  /\ handle_clear_app_data no_device_env clear_app_on_emulator_args fresh_world
     = (Raised NoDeviceError, after_spawn "adb devices" fresh_world).
Proof.
  split.
  - pose proof (proj1 (proj1 (resolution_runs_only_for_explicit_device no_device_env
                                shell_ls_args fresh_world)
                         ltac:(vm_compute; reflexivity))
                  ltac:(vm_compute; reflexivity)) as Hr.
    rewrite Hr. vm_compute. reflexivity.
  - apply (proj2 (proj2 (proj2 (resolution_runs_only_for_explicit_device no_device_env
                                  clear_app_on_emulator_args fresh_world))
                    ltac:(vm_compute; reflexivity) (after_spawn "adb devices" fresh_world)
                    ltac:(vm_compute; reflexivity))
             ltac:(vm_compute; reflexivity)).
Defined.

(** ** The capture pipeline *)

(** C1. The cleanup of [take_screenshot_and_copy_to_clipboard] misses the PNG
    intermediate: when the capture succeeds and the conversion to jpg then
    fails, the call fails and the file it captured into is still on disk.
    Only the file at the final temporary path is looked for and removed. The
    same file is left when the capture itself fails after the shell has
    created the file its output is redirected to. *)
Theorem clipboard_capture_leaves_png_when_conversion_fails :
  let r := handle_take_screenshot_and_copy_to_clipboard
             broken_converter_env jpg_clipboard_args fresh_world in
  let r' := handle_take_screenshot_and_copy_to_clipboard
              no_device_env jpg_clipboard_args fresh_world in
  files fresh_world = ∅
  /\ fst r = Raised (Exception
       "Failed to take screenshot: Failed to convert image: cannot write mode RGBA as JPEG")
  /\ files (snd r) = {[ "/tmp/adb-screenshot-52000.png" ]}
  /\ spawned (snd r)
     = ["adb exec-out screencap -p > " ++ dq ++ "/tmp/adb-screenshot-52000.png" ++ dq]
  /\ fst r' = Raised (Exception "Failed to take screenshot: Failed to take screenshot")
  /\ files (snd r') = {[ "/tmp/adb-screenshot-52000.png" ]}.
Proof.
  cbv zeta.
  split; [reflexivity|].
  split; [vm_compute; reflexivity|].
  split; [vm_compute; reflexivity|].
  split; [vm_compute; reflexivity|].
  split; vm_compute; reflexivity.
Qed.

(** C3. When the output path does not hold the text ".png", the conversion of
    [take_screenshot_and_save] writes over the capture and the capture is
    then removed: after a capture and a conversion that both succeed no file
    is left, and the message names a path at which nothing exists. With an
    output path that ends in ".png" the one file left is the converted one. *)
Theorem save_as_jpg_removes_its_own_output :
  let r := handle_take_screenshot_and_save
             (bridge_env (fun _ => accepted "")) (save_as_jpg_args "/home/user/shots/screen.jpg")
             fresh_world in
  let r' := handle_take_screenshot_and_save
              (bridge_env (fun _ => accepted "")) (save_as_jpg_args "/home/user/shots/screen.png")
              fresh_world in
  fst r = Returned (one_text "Screenshot saved to: /home/user/shots/screen.jpg in jpg format")
  /\ files (snd r) = ∅
  /\ fst r' = Returned (one_text "Screenshot saved to: /home/user/shots/screen.jpg in jpg format")
  /\ files (snd r') = {[ "/home/user/shots/screen.jpg" ]}.
Proof.
  cbv zeta.
  split; [vm_compute; reflexivity|].
  split; [vm_compute; reflexivity|].
  split; vm_compute; reflexivity.
Qed.

(** ** Relaunch after a primary action *)

Lemma startswith_app (p s : string) : PyStr.startswith (p ++ s) p = true.
Proof.
  unfold PyStr.startswith. induction p as [|c p IH]; simpl.
  - destruct s; reflexivity.
  - destruct (ascii_dec c c) as [_|Hne]; [exact IH|congruence].
Qed.

Lemma execute_adb_command_raised_world (E : Env) (command : string) (device_id : pyval)
    (w : World) :
  raises (execute_adb_command E command device_id) w ->
  exists e, execute_adb_command E command device_id w
            = (Raised e, after_spawn (full_command command device_id) w).
Proof.
  intros [e He]. exists e.
  pose proof (execute_adb_command_world E command device_id w) as Hw.
  destruct (execute_adb_command E command device_id w) as [r w1].
  cbn in He, Hw. subst. reflexivity.
Qed.

Lemma restart_output_both_fail (E : Env) (package_name : string) (device_id : pyval)
    (w : World) :
  first_attempt_fails E package_name device_id w ->
  second_attempt_fails E package_name device_id
    (after_spawn (full_command (monkey_command package_name) device_id) w) ->
  exists note w', restart_output E package_name device_id w = (Returned note, w')
                  /\ relaunch_failure_note note.
Proof.
  intros H1 H2.
  apply execute_adb_command_raised_world in H1. destruct H1 as [e1 H1].
  unfold restart_output, try_except at 1. rewrite H1.
  unfold second_attempt_fails in H2.
  unfold try_except, bind.
  destruct (execute_adb_command E (dumpsys_command package_name) device_id
              (after_spawn (full_command (monkey_command package_name) device_id) w))
    as [[package_info|e2] w2].
  - destruct (Re.search_component package_info) as [activity|].
    + destruct H2 as [e3 H3].
      destruct (execute_adb_command E (am_start_command activity) device_id w2)
        as [[output|e3'] w3]; cbn in H3; [discriminate H3|].
      eexists _, _. split; [reflexivity|]. right. apply startswith_app.
    + eexists _, _. split; [reflexivity|]. left. reflexivity.
  - eexists _, _. split; [reflexivity|]. right. apply startswith_app.
Qed.

Lemma launch_app_both_fail (E : Env) (package_name : string) (device_id : pyval)
    (w : World) (e : exn) :
  fst (execute_adb_command E (monkey_command package_name) device_id w) = Raised e ->
  second_attempt_fails E package_name device_id
    (after_spawn (full_command (monkey_command package_name) device_id) w) ->
  forall k : string -> list TextContent,
  fst (try_except
         (output <- execute_adb_command E (monkey_command package_name) device_id ;;
          ret (k output))
         (fun e =>
            try_except
              (package_info <- execute_adb_command E (dumpsys_command package_name) device_id ;;
               match Re.search_component package_info with
               | Some activity =>
                   output <- execute_adb_command E (am_start_command activity) device_id ;;
                   ret (one_text ("App launched with activity: " ++ activity ++ nl ++ output))
               | None => raise (Exception "Could not determine main activity")
               end)
              (fun _ => raise (Exception ("Failed to launch app: " ++ str_exn e)))) w)
  = Raised (Exception ("Failed to launch app: " ++ str_exn e)).
Proof.
  intros H1 H2 k.
  destruct (execute_adb_command_raised_world E _ _ _ (ex_intro _ e H1)) as [e1 H1'].
  assert (e1 = e) by (rewrite H1' in H1; cbn in H1; congruence). subst e1.
  unfold try_except at 1, bind at 1. rewrite H1'.
  unfold second_attempt_fails in H2.
  unfold try_except, bind.
  destruct (execute_adb_command E (dumpsys_command package_name) device_id
              (after_spawn (full_command (monkey_command package_name) device_id) w))
    as [[package_info|e2] w2]; [|reflexivity].
  destruct (Re.search_component package_info) as [activity|]; [|reflexivity].
  destruct H2 as [e3 H3].
  destruct (execute_adb_command E (am_start_command activity) device_id w2)
    as [[output|e3'] w3]; cbn in H3; [discriminate H3|reflexivity].
Qed.

Lemma call_tool_result (E : Env) (name : string) (args : gmap string pyval) (w : World) :
  fst (call_tool E name args w)
  = match fst (route E name args w) with
    | Returned l => Returned l
    | Raised e => Returned (one_text ("Error: " ++ str_exn e))
    end.
Proof.
  unfold call_tool, try_except.
  destruct (route E name args w) as [[l|e] w']; reflexivity.
Qed.

(** C6. After a primary action that succeeded, when the launcher trigger
    fails and the second attempt fails too, [clear_cache_and_restart] returns
    normally, through [call_tool] as well: its text reports the clearing and
    ends in a note that the relaunch failed. Under the same two failures
    [launch_app] raises, and [call_tool] renders it as a text that starts
    with "Error: Failed to launch app: ". *)
Theorem relaunch_failure_escalates_only_in_launch_app
    (E : Env) (args : gmap string pyval) (device_id : pyval) (w w0 : World) :
  is_str (args_get args "package_name") = true ->
  device_of_args E args w = (Returned device_id, w0) ->
  let package_name := args_str args "package_name" in
  (forall clear_output w1,
      execute_adb_command E ("shell pm clear " ++ package_name) device_id w0
      = (Returned clear_output, w1) ->
      first_attempt_fails E package_name device_id w1 ->
      second_attempt_fails E package_name device_id
        (after_spawn (full_command (monkey_command package_name) device_id) w1) ->
      exists note,
        relaunch_failure_note note
        /\ fst (handle_clear_cache_and_restart E args w)
           = Returned (one_text ("App data cleared and restarted: " ++ package_name ++ nl
                                 ++ "Clear: " ++ clear_output ++ nl ++ "Start: " ++ note))
        /\ fst (call_tool E "clear_cache_and_restart" args w)
           = Returned (one_text ("App data cleared and restarted: " ++ package_name ++ nl
                                 ++ "Clear: " ++ clear_output ++ nl ++ "Start: " ++ note)))
  /\ (forall e,
        fst (execute_adb_command E (monkey_command package_name) device_id w0) = Raised e ->
        second_attempt_fails E package_name device_id
          (after_spawn (full_command (monkey_command package_name) device_id) w0) ->
        fst (handle_launch_app E args w)
        = Raised (Exception ("Failed to launch app: " ++ str_exn e))
        /\ fst (call_tool E "launch_app" args w)
           = Returned (one_text ("Error: Failed to launch app: " ++ str_exn e))).
Proof.
  intros Hstr Hdev package_name. split.
  - intros clear_output w1 Hclear H1 H2.
    destruct (restart_output_both_fail E package_name device_id w1 H1 H2)
      as (note & w2 & Hrestart & Hnote).
    exists note. split; [exact Hnote|].
    assert (Hh : fst (handle_clear_cache_and_restart E args w)
                 = Returned (one_text ("App data cleared and restarted: " ++ package_name ++ nl
                                       ++ "Clear: " ++ clear_output ++ nl ++ "Start: " ++ note))).
    { unfold handle_clear_cache_and_restart. rewrite Hstr. cbn [negb].
      unfold bind at 1. rewrite Hdev.
      fold package_name. cbv zeta.
      unfold bind at 1. rewrite Hclear.
      unfold bind at 1, asyncio_sleep, ret at 1.
      unfold bind. rewrite Hrestart. reflexivity. }
    split; [exact Hh|].
    rewrite call_tool_result.
    change (route E "clear_cache_and_restart" args) with (handle_clear_cache_and_restart E args).
    rewrite Hh. reflexivity.
  - intros e H1 H2.
    assert (Hh : fst (handle_launch_app E args w)
                 = Raised (Exception ("Failed to launch app: " ++ str_exn e))).
    { unfold handle_launch_app. rewrite Hstr. cbn [negb].
      unfold bind at 1. rewrite Hdev.
      fold package_name. cbv zeta.
      apply (launch_app_both_fail E package_name device_id w0 e H1 H2). }
    split; [exact Hh|].
    rewrite call_tool_result.
    change (route E "launch_app" args) with (handle_launch_app E args).
    rewrite Hh. reflexivity.
Qed.

Lemma relaunch_failure_escalates_only_in_launch_app_witness :
  (exists note,
      relaunch_failure_note note
      /\ fst (call_tool unlaunchable_env "clear_cache_and_restart" clear_app_args fresh_world)
         = Returned (one_text ("App data cleared and restarted: com.example.app" ++ nl
                               ++ "Clear: Success" ++ nl ++ "Start: " ++ note)))
  /\ fst (call_tool unlaunchable_env "launch_app" clear_app_args fresh_world)
     = Returned (one_text
         "Error: Failed to launch app: ADB command failed: ADB command failed: ** No activities found to run, monkey aborted.").
Proof.
  destruct (relaunch_failure_escalates_only_in_launch_app
              unlaunchable_env clear_app_args PNone fresh_world fresh_world
              ltac:(vm_compute; reflexivity) ltac:(vm_compute; reflexivity))
    as [Hclear Hlaunch].
  split.
  - destruct (Hclear "Success" (after_spawn "adb shell pm clear com.example.app" fresh_world)
                ltac:(vm_compute; reflexivity)
                ltac:(eexists; vm_compute; reflexivity)
                ltac:(vm_compute; exact I))
      as (note & Hnote & _ & Hcall).
    exists note. split; [exact Hnote|]. exact Hcall.
  - apply (Hlaunch (Exception
             "ADB command failed: ADB command failed: ** No activities found to run, monkey aborted.")
             ltac:(vm_compute; reflexivity)
             ltac:(vm_compute; exact I)).
Defined.

(** ** The dispatcher *)

Lemma returns_text_ret (t : string) : returns_text (ret (one_text t)).
Proof. intros w l H. cbn in H. inversion H. eauto. Qed.

Lemma returns_text_raise (e : exn) : returns_text (raise e).
Proof. intros w l H. cbn in H. discriminate H. Qed.

Lemma returns_text_bind {A} (m : M A) (k : A -> M (list TextContent)) :
  (forall a, returns_text (k a)) -> returns_text (bind m k).
Proof.
  intros Hk w l H. unfold bind in H.
  destruct (m w) as [[a|e] w']; [|discriminate H].
  exact (Hk a w' l H).
Qed.

Lemma returns_text_try_except (m : M (list TextContent)) (h : exn -> M (list TextContent)) :
  returns_text m -> (forall e, returns_text (h e)) -> returns_text (try_except m h).
Proof.
  intros Hm Hh w l H. unfold try_except in H.
  pose proof (Hm w) as Hm'.
  destruct (m w) as [[a|e] w'].
  - cbn in H. apply Hm'. cbn. exact H.
  - exact (Hh e w' l H).
Qed.

Lemma returns_text_try_finally (m : M (list TextContent)) (f : M unit) :
  returns_text m -> returns_text (try_finally m f).
Proof.
  intros Hm w l H. unfold try_finally in H.
  pose proof (Hm w) as Hm'.
  destruct (m w) as [r w'].
  destruct (f w') as [[u|e] w'']; [|discriminate H].
  cbn in H. apply Hm'. exact H.
Qed.

Ltac returns_text_step :=
  first
    [ apply returns_text_ret
    | apply returns_text_raise
    | apply returns_text_bind; intros
    | apply returns_text_try_except; [|intros]
    | apply returns_text_try_finally
    | match goal with
      | |- returns_text (if ?b then _ else _) => destruct b
      | |- returns_text (match ?x with _ => _ end) => destruct x
      end ].

Ltac returns_text_auto := cbv zeta; repeat returns_text_step.

Lemma route_returns_text (E : Env) (name : string) (arguments : gmap string pyval) :
  returns_text (route E name arguments).
Proof.
  unfold route.
  repeat match goal with
         | |- returns_text (if String.eqb ?a ?b then _ else _) => destruct (String.eqb a b)
         end.
  - unfold handle_adb_devices. returns_text_auto.
  - unfold handle_adb_shell. returns_text_auto.
  - unfold handle_adb_install. returns_text_auto.
  - unfold handle_adb_uninstall. returns_text_auto.
  - unfold handle_adb_list_packages. returns_text_auto.
  - unfold handle_adb_pull. returns_text_auto.
  - unfold handle_adb_push. returns_text_auto.
  - unfold handle_launch_app. returns_text_auto.
  - unfold handle_take_screenshot_and_save. returns_text_auto.
  - unfold handle_take_screenshot_and_copy_to_clipboard. returns_text_auto.
  - unfold handle_clear_app_data. returns_text_auto.
  - unfold handle_force_stop_app. returns_text_auto.
  - unfold handle_go_to_home. returns_text_auto.
  - unfold handle_open_settings. returns_text_auto.
  - unfold handle_clear_cache_and_restart. returns_text_auto.
  - unfold handle_force_restart_app. returns_text_auto.
  - returns_text_auto.
Qed.

(** C7. For every tool name, known or not, and every argument bag,
    [call_tool] returns: it never raises, and what it returns is one text.
    Whenever the routed handler raises, or the name is unknown, that text is
    "Error: " followed by the message of the exception. *)
Theorem call_tool_never_raises
    (E : Env) (name : string) (arguments : gmap string pyval) (w : World) :
  exists t,
    fst (call_tool E name arguments w) = Returned (one_text t)
    /\ (forall e, fst (route E name arguments w) = Raised e ->
                  t = "Error: " ++ str_exn e /\ PyStr.startswith t "Error: " = true)
    /\ (forall l, fst (route E name arguments w) = Returned l -> l = one_text t).
Proof.
  rewrite call_tool_result.
  pose proof (route_returns_text E name arguments w) as Htext.
  destruct (fst (route E name arguments w)) as [l|e].
  - destruct (Htext l eq_refl) as [t ->].
    exists t. split; [reflexivity|]. split.
    + intros e He. discriminate He.
    + intros l Hl. congruence.
  - exists ("Error: " ++ str_exn e). split; [reflexivity|]. split.
    + intros e' He'. inversion He'; subst. split; [reflexivity|apply startswith_app].
    + intros l Hl. discriminate Hl.
Qed.

(** ** Path resolution *)

































(** ** The failures of the tools *)

Lemma raises_only_ret {A} (P : exn -> Prop) (a : A) : raises_only P (ret a).
Proof. intros w e H. discriminate H. Qed.

Lemma raises_only_raise {A} (P : exn -> Prop) (e : exn) :
  P e -> raises_only P (@raise A e).
Proof. intros HP w e' H. cbn in H. inversion H; subst. exact HP. Qed.

Lemma raises_only_bind {A B} (P : exn -> Prop) (m : M A) (k : A -> M B) :
  raises_only P m -> (forall a, raises_only P (k a)) -> raises_only P (bind m k).
Proof.
  intros Hm Hk w e H. unfold bind in H.
  pose proof (Hm w) as Hm'.
  destruct (m w) as [[a|e'] w'].
  - exact (Hk a w' e H).
  - cbn in H. inversion H; subst. apply Hm'. reflexivity.
Qed.

Lemma raises_only_try_except {A} (P : exn -> Prop) (m : M A) (h : exn -> M A) :
  (forall e, raises_only P (h e)) -> raises_only P (try_except m h).
Proof.
  intros Hh w e H. unfold try_except in H.
  destruct (m w) as [[a|e'] w']; [discriminate H|].
  exact (Hh e' w' e H).
Qed.

Lemma raises_only_try_finally {A} (P : exn -> Prop) (m : M A) (f : M unit) :
  raises_only P m -> raises_only P f -> raises_only P (try_finally m f).
Proof.
  intros Hm Hf w e H. unfold try_finally in H.
  pose proof (Hm w) as Hm'.
  destruct (m w) as [r w'].
  pose proof (Hf w') as Hf'.
  destruct (f w') as [[u|e'] w''].
  - cbn in H. apply Hm'. exact H.
  - cbn in H. inversion H; subst. apply Hf'. reflexivity.
Qed.

Ltac classify :=
  unfold classified, invalid_parameters, no_such_file, BridgeError, NoDeviceError,
    DeviceNotFoundError;
  cbn [str_exn];
  let try_prefix p :=
    (exists p; split;
     [ unfold failure_prefixes; cbn [In]; repeat (first [left; reflexivity | right])
     | first [apply startswith_app | reflexivity] ]) in
  first
    [ try_prefix "Invalid parameters: "
    | try_prefix "ADB command failed: "
    | try_prefix "No Android devices connected"
    | try_prefix "Device with ID "
    | try_prefix "Failed to create directory: "
    | try_prefix "Directory is not writable: "
    | try_prefix "Failed to pull file: "
    | try_prefix "Local file does not exist: "
    | try_prefix "Failed to launch app: "
    | try_prefix "Failed to take screenshot: "
    | try_prefix "'"
    | try_prefix "[Errno " ].

Lemma execute_adb_command_classified (E : Env) (command : string) (device_id : pyval) :
  raises_only classified (execute_adb_command E command device_id).
Proof.
  intros w e H.
  destruct (execute_adb_command_raises_bridge_error E _ _ _ _ H) as [m ->].
  classify.
Qed.

Lemma get_connected_devices_classified (E : Env) :
  raises_only classified (get_connected_devices E).
Proof.
  unfold get_connected_devices.
  apply raises_only_bind; [apply execute_adb_command_classified|].
  intros output. apply raises_only_ret.
Qed.

(** With a truthy hint [validate_device_id] cannot reach the branch that
    raises for several devices. *)
Lemma validate_device_id_classified (E : Env) (hint : pyval) :
  truthy hint = true -> raises_only classified (validate_device_id E hint).
Proof.
  intros Ht. unfold validate_device_id.
  apply raises_only_bind; [apply get_connected_devices_classified|].
  intros [|d0 rest].
  - apply raises_only_raise. classify.
  - rewrite Ht. destruct (existsb _ _).
    + apply raises_only_ret.
    + apply raises_only_raise. classify.
Qed.

Lemma device_of_args_classified (E : Env) (args : gmap string pyval) :
  raises_only classified (device_of_args E args).
Proof.
  unfold device_of_args.
  destruct (truthy (args_get args "device_id")) eqn:Ht.
  - apply validate_device_id_classified. exact Ht.
  - apply raises_only_ret.
Qed.

Lemma is_directory_writable_classified (E : Env) (d : string) :
  raises_only classified (is_directory_writable E d).
Proof.
  unfold is_directory_writable.
  apply raises_only_try_except. intros e. apply raises_only_ret.
Qed.

Lemma py_lower_classified (v : pyval) : raises_only classified (py_lower v).
Proof.
  destruct v; cbn [py_lower].
  - apply raises_only_raise. classify.
  - apply raises_only_ret.
  - apply raises_only_raise. classify.
Qed.

Lemma os_path_exists_classified (E : Env) (p : string) :
  raises_only classified (os_path_exists E p).
Proof. intros w e H. discriminate H. Qed.

Lemma os_unlink_classified (p : string) : raises_only classified (os_unlink p).
Proof.
  unfold os_unlink. apply raises_only_bind.
  - intros w e H. discriminate H.
  - intros w. destruct (bool_decide _).
    + intros w' e H. discriminate H.
    + apply raises_only_raise. classify.
Qed.

Lemma create_temp_file_path_classified (E : Env) (f : string) :
  raises_only classified (create_temp_file_path E f).
Proof. intros w e H. discriminate H. Qed.

Lemma prepare_directory_classified (E : Env) (d : string) :
  raises_only classified (prepare_directory E d).
Proof.
  unfold prepare_directory.
  apply raises_only_bind.
  - apply raises_only_try_except. intros e. apply raises_only_raise. classify.
  - intros _. apply raises_only_bind; [apply is_directory_writable_classified|].
    intros ok. unfold when. destruct (negb ok).
    + apply raises_only_raise. classify.
    + apply raises_only_ret.
Qed.

Lemma restart_output_classified (E : Env) (package_name : string) (device_id : pyval) :
  raises_only classified (restart_output E package_name device_id).
Proof.
  unfold restart_output.
  apply raises_only_try_except. intros e1.
  apply raises_only_try_except. intros e2.
  apply raises_only_ret.
Qed.

Ltac classified_step :=
  first
    [ apply raises_only_ret
    | apply raises_only_raise; classify
    | apply execute_adb_command_classified
    | apply get_connected_devices_classified
    | apply device_of_args_classified
    | apply validate_device_id_classified; assumption
    | apply py_lower_classified
    | apply os_path_exists_classified
    | apply os_unlink_classified
    | apply create_temp_file_path_classified
    | apply prepare_directory_classified
    | apply restart_output_classified
    | apply raises_only_try_except; intros
    | apply raises_only_try_finally
    | apply raises_only_bind; [|intros]
    | match goal with
      | |- raises_only _ (if ?b then _ else _) => destruct b eqn:?
      | |- raises_only _ (match ?x with _ => _ end) => destruct x eqn:?
      | |- raises_only _ (when ?b _) => unfold when
      end ].

Ltac classified_auto := cbv zeta; repeat classified_step.

Lemma route_classified (E : Env) (name : string) (arguments : gmap string pyval) :
  In name tool_names -> raises_only classified (route E name arguments).
Proof.
  intros Hin. unfold route.
  repeat match goal with
         | |- raises_only _ (if String.eqb ?a ?b then _ else _) =>
             destruct (String.eqb_spec a b)
         end.
  - unfold handle_adb_devices. classified_auto.
  - unfold handle_adb_shell. classified_auto.
  - unfold handle_adb_install. classified_auto.
  - unfold handle_adb_uninstall. classified_auto.
  - unfold handle_adb_list_packages. classified_auto.
  - unfold handle_adb_pull. classified_auto.
  - unfold handle_adb_push. classified_auto.
  - unfold handle_launch_app. classified_auto.
  - unfold handle_take_screenshot_and_save. classified_auto.
  - unfold handle_take_screenshot_and_copy_to_clipboard. classified_auto.
  - unfold handle_clear_app_data. classified_auto.
  - unfold handle_force_stop_app. classified_auto.
  - unfold handle_go_to_home. classified_auto.
  - unfold handle_open_settings. classified_auto.
  - unfold handle_clear_cache_and_restart. classified_auto.
  - unfold handle_force_restart_app. classified_auto.
  - exfalso. cbn in Hin. intuition congruence.
Qed.

(** X1. Every exception a tool of the catalogue raises carries a message that
    starts with one of twelve fixed texts (validation, bridge, device
    resolution, local path, launch, capture, a value that is not a string,
    the removal of the temporary file), and [call_tool] renders it as
    "Error: " followed by that message. *)
Theorem tool_failure_is_classified
    (E : Env) (name : string) (arguments : gmap string pyval) (w : World) (e : exn) :
  In name tool_names ->
  fst (route E name arguments w) = Raised e ->
  fst (call_tool E name arguments w) = Returned (one_text ("Error: " ++ str_exn e))
  /\ exists p, In p failure_prefixes /\ PyStr.startswith (str_exn e) p = true.
Proof.
  intros Hin He. split.
  - rewrite call_tool_result, He. reflexivity.
  - exact (route_classified E name arguments Hin w e He).
Qed.

Lemma tool_failure_is_classified_witness :
  fst (call_tool no_device_env "clear_app_data" clear_app_on_emulator_args fresh_world)
  = Returned (one_text "Error: No Android devices connected")
  /\ exists p, In p failure_prefixes
               /\ PyStr.startswith "No Android devices connected" p = true.
Proof.
  apply (tool_failure_is_classified no_device_env "clear_app_data"
           clear_app_on_emulator_args fresh_world NoDeviceError).
  - cbn. tauto.
  - vm_compute. reflexivity.
Defined.

Lemma ambiguous_not_classified : ~ classified AmbiguousDeviceError.
Proof.
  intros [p [Hin Hs]]. unfold failure_prefixes in Hin. cbn [In] in Hin.
  repeat (destruct Hin as [<-|Hin]; [vm_compute in Hs; discriminate Hs|]).
  exact Hin.
Qed.

(** X2. No tool call ever fails with the error for several connected devices,
    and no tool picks a device by itself: the handlers call
    [validate_device_id] only with a truthy identifier, so its branch for a
    missing hint is never reached from [call_tool]. *)
Theorem no_tool_raises_ambiguous_device_error
    (E : Env) (name : string) (arguments : gmap string pyval) (w : World) :
  fst (route E name arguments w) <> Raised AmbiguousDeviceError
  /\ (forall v w', device_of_args E arguments w = (Returned v, w') ->
                   v = PNone \/ v = args_get arguments "device_id").
Proof.
  split.
  - intros He.
    destruct (in_dec string_dec name tool_names) as [Hin|Hout].
    + exact (ambiguous_not_classified (route_classified E name arguments Hin w _ He)).
    + assert (Hr : fst (route E name arguments w) = Raised (Exception ("Unknown tool: " ++ name))).
      { unfold route.
        repeat match goal with
               | |- context [if String.eqb ?a ?b then _ else _] =>
                   destruct (String.eqb_spec a b);
                   [exfalso; apply Hout; subst; cbn; tauto|]
               end.
        reflexivity. }
      rewrite Hr in He. discriminate He.
  - intros v w' H. unfold device_of_args in H.
    destruct (truthy (args_get arguments "device_id")) eqn:Ht.
    + right. unfold validate_device_id, bind in H.
      destruct (get_connected_devices E w) as [[[|d0 rest]|e] w1]; try discriminate H.
      rewrite Ht in H.
      destruct (existsb _ _); [|discriminate H].
      inversion H. reflexivity.
    + left. inversion H. reflexivity.
Qed.

(** ** The catalogue and the dispatcher *)

Lemma route_unknown (E : Env) (name : string) (arguments : gmap string pyval) :
  ~ In name tool_names ->
  route E name arguments = raise (Exception ("Unknown tool: " ++ name)).
Proof.
  intros Hout. unfold route.
  repeat match goal with
         | |- context [if String.eqb ?a ?b then _ else _] =>
             destruct (String.eqb_spec a b);
             [exfalso; apply Hout; subst; cbn; tauto|]
         end.
  reflexivity.
Qed.

Lemma prefix_head (c0 c : ascii) (p m : string) :
  String.prefix (String c0 p) (String c m) = true -> c0 = c.
Proof.
  intros H.
  change (String.prefix (String c0 p) (String c m))
    with (if ascii_dec c0 c then String.prefix p m else false) in H.
  destruct (ascii_dec c0 c); [assumption|discriminate H].
Qed.

Lemma classified_not_unknown_tool (e : exn) :
  classified e -> PyStr.startswith (str_exn e) "Unknown tool: " = false.
Proof.
  intros [p [Hin Hs]]. unfold failure_prefixes in Hin. cbn [In] in Hin.
  destruct (str_exn e) as [|c m].
  - reflexivity.
  - unfold PyStr.startswith in *.
    repeat (destruct Hin as [<-|Hin];
            [apply prefix_head in Hs; subst c; vm_compute; reflexivity|]).
    destruct Hin.
Qed.

(** X3. The dispatcher knows exactly the tools the catalogue lists. A name
    outside the catalogue is answered with "Error: Unknown tool: " and the
    name, and nothing has been run or written; for a name of the catalogue no
    failure message starts with "Unknown tool: ". *)
Theorem dispatcher_knows_the_catalogue
    (E : Env) (name : string) (arguments : gmap string pyval) (w : World) :
  (~ In name tool_names ->
   call_tool E name arguments w
   = (Returned (one_text ("Error: Unknown tool: " ++ name)), w))
  /\ (In name tool_names ->
      forall e, fst (route E name arguments w) = Raised e ->
                PyStr.startswith (str_exn e) "Unknown tool: " = false).
Proof.
  split.
  - intros Hout. unfold call_tool, try_except.
    rewrite (route_unknown E name arguments Hout). reflexivity.
  - intros Hin e He. apply classified_not_unknown_tool.
    exact (route_classified E name arguments Hin w e He).
Qed.

Lemma dispatcher_knows_the_catalogue_witness :
  call_tool offline_env "adb_reboot" shell_ls_args fresh_world
  = (Returned (one_text "Error: Unknown tool: adb_reboot"), fresh_world)
  /\ PyStr.startswith "ADB command failed: ADB command failed: error: device offline"
       "Unknown tool: " = false.
Proof.
  destruct (dispatcher_knows_the_catalogue offline_env "adb_reboot" shell_ls_args fresh_world)
    as [Hout _].
  destruct (dispatcher_knows_the_catalogue offline_env "adb_shell" shell_ls_args fresh_world)
    as [_ Hin].
  split.
  - apply Hout. cbn. intuition discriminate.
  - apply (Hin ltac:(cbn; tauto)
             (Exception "ADB command failed: ADB command failed: error: device offline")).
    vm_compute. reflexivity.
Defined.

Ltac invalid_call E args Hstr h :=
  eexists; unfold call_tool, try_except;
  change (route E _ args) with (h E args);
  unfold h; rewrite Hstr;
  first [ reflexivity | rewrite orb_true_r; reflexivity ].

(** X4. Every parameter the catalogue declares as required is enforced
    before anything else happens: when the value of a required key of a tool
    is missing or is not a string, [call_tool] answers "Error: Invalid
    parameters: ..." and no process has been started, no file touched and
    the clock not read. *)
Theorem required_parameters_are_enforced
    (E : Env) (t : Tool) (k : string) (arguments : gmap string pyval) (w : World) :
  In t list_tools ->
  In k (schema_required t) ->
  is_str (args_get arguments k) = false ->
  exists what,
    call_tool E (tool_name t) arguments w
    = (Returned (one_text ("Error: Invalid parameters: " ++ what)), w).
Proof.
  intros Ht Hk Hstr. unfold list_tools in Ht. cbn [In] in Ht.
  repeat (destruct Ht as [<-|Ht];
          [cbn [schema_required tool_name In] in *;
           repeat (destruct Hk as [<-|Hk]); try (exfalso; exact Hk)|]);
    try (exfalso; exact Ht).
  - invalid_call E arguments Hstr handle_adb_shell.
  - invalid_call E arguments Hstr handle_adb_install.
  - invalid_call E arguments Hstr handle_adb_uninstall.
  - invalid_call E arguments Hstr handle_adb_pull.
  - invalid_call E arguments Hstr handle_adb_pull.
  - invalid_call E arguments Hstr handle_adb_push.
  - invalid_call E arguments Hstr handle_adb_push.
  - invalid_call E arguments Hstr handle_launch_app.
  - invalid_call E arguments Hstr handle_take_screenshot_and_save.
  - invalid_call E arguments Hstr handle_clear_app_data.
  - invalid_call E arguments Hstr handle_force_stop_app.
  - invalid_call E arguments Hstr handle_clear_cache_and_restart.
  - invalid_call E arguments Hstr handle_force_restart_app.
Qed.

Lemma required_parameters_are_enforced_witness :
  exists what,
    call_tool one_device_env "adb_shell" clear_app_args fresh_world
    = (Returned (one_text ("Error: Invalid parameters: " ++ what)), fresh_world).
Proof.
  apply (required_parameters_are_enforced one_device_env
           (nth 1 list_tools (mkTool "" "" "" [] [])) "command" clear_app_args fresh_world).
  - cbn. tauto.
  - cbn. tauto.
  - vm_compute. reflexivity.
Defined.

(** ** Local files *)

Lemma create_subprocess_shell_world (E : Env) (cmd : string) (w : World) :
  snd (create_subprocess_shell E cmd None w) = after_spawn cmd w.
Proof.
  unfold create_subprocess_shell.
  destruct (env_spawn E (spawned w) cmd); reflexivity.
Qed.

(** X5. [is_directory_writable] never raises and starts no process. It
    answers [True] exactly when the directory can be created and the probe
    file, named after the clock, can be written; the probe is then removed
    again, and no other file is touched in either case. *)
Theorem is_directory_writable_probe (E : Env) (dir_path : string) (w : World) :
  let probe := Posix.join dir_path
                 (".write-test-" ++ PyStr.of_Z (env_clock_ms E (clock_reads w))) in
  exists b w',
    is_directory_writable E dir_path w = (Returned b, w')
    /\ spawned w' = spawned w
    /\ (b = true <-> env_makedirs E dir_path = None /\ env_can_write E probe = true)
    /\ (b = true -> files w' = files w ∖ {[ probe ]})
    /\ (b = false -> files w' = files w).
Proof.
  intros probe.
  unfold is_directory_writable, try_except, bind, os_makedirs.
  destruct (env_makedirs E dir_path) as [why|] eqn:Hmk.
  - cbn. exists false, w. repeat split; try discriminate; try reflexivity.
    intros [H _]. discriminate H.
  - cbn. unfold write_file, bind. fold probe.
    destruct (env_can_write E probe) eqn:Hcw.
    + cbn. unfold os_unlink, bind, get_world, set_files. cbn.
      rewrite bool_decide_eq_true_2 by set_solver. cbn.
      eexists true, _. split; [reflexivity|]. cbn.
      repeat split; try discriminate; try reflexivity.
      intros _. apply set_eq. intros x.
      rewrite !elem_of_difference, elem_of_union, !elem_of_singleton. tauto.
    + cbn. eexists false, _. split; [reflexivity|]. cbn.
      repeat split; try discriminate; try reflexivity.
      intros [_ H]. discriminate H.
Qed.

(** X6. [convert_image_format] starts no process and removes no file, the
    input included; the only file it can add is the output. When it returns
    the output is on disk, and every failure is an exception whose message
    starts with "Failed to convert image: ". *)
Theorem convert_image_format_effects
    (E : Env) (input_path output_path format_name : string) (w : World) :
  let r := convert_image_format E input_path output_path format_name w in
  spawned (snd r) = spawned w
  /\ files w ⊆ files (snd r)
  /\ files (snd r) ⊆ {[ output_path ]} ∪ files w
  /\ (fst r = Returned tt -> output_path ∈ files (snd r))
  /\ (forall e, fst r = Raised e ->
                PyStr.startswith (str_exn e) "Failed to convert image: " = true).
Proof.
  cbv zeta.
  unfold convert_image_format, try_except, bind, os_makedirs.
  destruct (env_makedirs E (Posix.dirname output_path)) as [why|].
  - cbn. split; [reflexivity|]. split; [set_solver|]. split; [set_solver|].
    split; [discriminate|].
    intros e H. inversion H. apply (startswith_app "Failed to convert image: ").
  - cbn. unfold pil_convert, bind, get_world, set_files, when. cbn.
    destruct (env_pil E input_path output_path _) as [|why partial].
    + cbn. split; [reflexivity|]. split; [set_solver|]. split; [set_solver|].
      split; [intros _; set_solver|discriminate].
    + destruct partial; cbn.
      * split; [reflexivity|]. split; [set_solver|]. split; [set_solver|].
        split; [discriminate|].
        intros e H. inversion H. apply (startswith_app "Failed to convert image: ").
      * split; [reflexivity|]. split; [set_solver|]. split; [set_solver|].
        split; [discriminate|].
        intros e H. inversion H. apply (startswith_app "Failed to convert image: ").
Qed.



(** ** The temporary file of the clipboard capture *)

Lemma validate_device_id_world (E : Env) (hint : pyval) (w : World) :
  snd (validate_device_id E hint w) = after_spawn "adb devices" w.
Proof.
  unfold validate_device_id, bind.
  pose proof (get_connected_devices_world E w) as Hw.
  destruct (get_connected_devices E w) as [[devices|e] w1]; cbn in Hw; subst w1;
    [|reflexivity].
  destruct devices as [|d0 rest]; [reflexivity|].
  destruct (truthy hint).
  - destruct (existsb _ _); reflexivity.
  - destruct rest; reflexivity.
Qed.

(** Device resolution touches neither the files nor the clock. *)
Lemma device_of_args_world (E : Env) (args : gmap string pyval) (w : World) :
  files (snd (device_of_args E args w)) = files w
  /\ clock_reads (snd (device_of_args E args w)) = clock_reads w.
Proof.
  unfold device_of_args. destruct (truthy (args_get args "device_id")).
  - rewrite validate_device_id_world. split; reflexivity.
  - split; reflexivity.
Qed.

Lemma copy_image_to_clipboard_files (E : Env) (image_path format_name : string) (w : World) :
  files (snd (copy_image_to_clipboard E image_path format_name w)) = files w.
Proof.
  unfold copy_image_to_clipboard, try_except.
  assert (Hspawn : forall cmd,
             files (snd (match bind (create_subprocess_shell E cmd None) (fun _ => ret tt) w with
                         | (Returned a, w') => (Returned a, w')
                         | (Raised e, w') =>
                             raise (Exception ("Failed to copy image to clipboard: "
                                               ++ str_exn e)) w'
                         end)) = files w).
  { intros cmd. unfold bind.
    pose proof (create_subprocess_shell_world E cmd w) as Hw.
    destruct (create_subprocess_shell E cmd None w) as [[a|e] w']; cbn in *; subst w';
      reflexivity. }
  destruct (String.eqb (env_platform E) "darwin"); [apply Hspawn|].
  destruct (String.eqb (env_platform E) "win32"); [apply Hspawn|].
  destruct (PyStr.startswith (env_platform E) "linux"); [apply Hspawn|].
  reflexivity.
Qed.

(** The [finally] of the clipboard capture: whatever the body did, the file
    at [p] is gone afterwards and no other file is touched. *)
Lemma try_finally_cleanup {A} (E : Env) (m : M A) (p : string) (w : World) :
  files (snd (try_finally m (ex <- os_path_exists E p ;; when ex (os_unlink p)) w))
  = files (snd (m w)) ∖ {[ p ]}.
Proof.
  unfold try_finally. destruct (m w) as [r w']. cbn [snd].
  unfold bind, os_path_exists, when, os_unlink, get_world, set_files, bind.
  destruct (bool_decide (p ∈ files w')) eqn:Hin; cbn.
  - rewrite Hin. reflexivity.
  - apply bool_decide_eq_false in Hin.
    destruct (env_isdir E p); cbn.
    + rewrite bool_decide_eq_false_2 by exact Hin. cbn.
      apply set_eq. intros x. rewrite elem_of_difference, elem_of_singleton.
      split; [intros Hx; split; [exact Hx|congruence]|tauto].
    + apply set_eq. intros x. rewrite elem_of_difference, elem_of_singleton.
      split; [intros Hx; split; [exact Hx|congruence]|tauto].
Qed.

(** X8. Once [take_screenshot_and_copy_to_clipboard] has resolved the device
    and the format, the file at its final temporary path is not on disk when
    the call ends, whether the capture, the conversion or the clipboard step
    succeeded or failed. *)
Theorem clipboard_final_path_is_removed
    (E : Env) (args : gmap string pyval) (w w0 : World) (device_id : pyval) (f : string) :
  device_of_args E args w = (Returned device_id, w0) ->
  args_get_default args "format" (PStr "png") = PStr f ->
  Posix.join (env_tempdir E)
    ("adb-screenshot-" ++ PyStr.of_Z (env_clock_ms E (clock_reads w0))
     ++ get_file_extension (PyStr.lower f))
  ∉ files (snd (handle_take_screenshot_and_copy_to_clipboard E args w)).
Proof.
  intros Hdev Hfmt.
  unfold handle_take_screenshot_and_copy_to_clipboard.
  unfold bind at 1. rewrite Hdev. rewrite Hfmt. cbn [py_lower].
  unfold bind at 1, ret at 1.
  unfold bind at 1, create_temp_file_path, bind at 1, loop_time_ms, ret at 1.
  cbv beta iota zeta.
  rewrite try_finally_cleanup.
  rewrite elem_of_difference, elem_of_singleton. tauto.
Qed.

Lemma clipboard_final_path_is_removed_witness :
  "/tmp/adb-screenshot-52000.jpg"
  ∉ files (snd (handle_take_screenshot_and_copy_to_clipboard
                  broken_converter_env jpg_clipboard_args fresh_world)).
Proof.
  apply (clipboard_final_path_is_removed broken_converter_env jpg_clipboard_args
           fresh_world fresh_world PNone "jpg").
  - vm_compute. reflexivity.
  - vm_compute. reflexivity.
Defined.

Lemma string_app_assoc (a b c : string) : (a ++ b) ++ c = a ++ (b ++ c).
Proof.
  induction a as [|x a IH]; [reflexivity|].
  change ((String x a ++ b) ++ c) with (String x ((a ++ b) ++ c)).
  change (String x a ++ (b ++ c)) with (String x (a ++ (b ++ c))).
  rewrite IH. reflexivity.
Qed.

Lemma prefix_split (p s : string) :
  String.prefix p s = true -> s = p ++ PyStr.drop (String.length p) s.
Proof.
  revert s. induction p as [|c p IH]; intros s H.
  - reflexivity.
  - destruct s as [|c' s]; [discriminate H|].
    pose proof (prefix_head _ _ _ _ H) as ->.
    change (String.prefix (String c' p) (String c' s))
      with (if ascii_dec c' c' then String.prefix p s else false) in H.
    destruct (ascii_dec c' c') as [_|Hne]; [|congruence].
    change (String c' p ++ PyStr.drop (String.length (String c' p)) (String c' s))
      with (String c' (p ++ PyStr.drop (String.length p) s)).
    rewrite <- (IH s H). reflexivity.
Qed.

Lemma drop_app_length (p s : string) : PyStr.drop (String.length p) (p ++ s) = s.
Proof. induction p as [|c p IH]; [destruct s; reflexivity|exact IH]. Qed.

(** Replacing a text by itself changes nothing. *)
Lemma replace_from_same (old : string) (s : string) :
  old <> "" -> forall k, PyStr.replace_from old old k s = PyStr.drop k s.
Proof.
  intros Hne. induction s as [|c s IH]; intros k.
  - destruct k; reflexivity.
  - destruct k as [|k].
    + cbn [PyStr.replace_from PyStr.drop].
      destruct (String.prefix old (String c s)) eqn:Hp.
      * rewrite IH.
        destruct old as [|c0 old']; [congruence|].
        pose proof (prefix_split _ _ Hp) as Hs.
        change (String.length (String c0 old') - 1)%nat with (String.length old' - 0)%nat.
        rewrite Nat.sub_0_r.
        change (PyStr.drop (String.length (String c0 old')) (String c s))
          with (PyStr.drop (String.length old') s) in Hs.
        change (String c0 old' ++ PyStr.drop (String.length old') s)
          with (String c0 (old' ++ PyStr.drop (String.length old') s)) in Hs.
        symmetry. exact Hs.
      * rewrite IH. reflexivity.
    + cbn [PyStr.replace_from PyStr.drop]. apply IH.
Qed.

Lemma replace_same (s old : string) : old <> "" -> PyStr.replace s old old = s.
Proof.
  intros Hne. unfold PyStr.replace.
  destruct old as [|c old']; [congruence|]. cbn [PyStr.is_empty].
  apply (replace_from_same (String c old') s Hne 0).
Qed.

(** X9. With the format png (the default), [take_screenshot_and_copy_to_clipboard]
    leaves nothing behind on any exit path: no file is on disk afterwards
    that was not there before, and the only file it can have removed is one
    at its own temporary path. *)
Theorem clipboard_png_leaves_no_file
    (E : Env) (args : gmap string pyval) (w : World) (f : string) :
  args_get_default args "format" (PStr "png") = PStr f ->
  PyStr.lower f = "png" ->
  let r := handle_take_screenshot_and_copy_to_clipboard E args w in
  let temp := Posix.join (env_tempdir E)
                ("adb-screenshot-" ++ PyStr.of_Z (env_clock_ms E (clock_reads w)) ++ ".png") in
  files (snd r) ⊆ files w /\ files w ∖ {[ temp ]} ⊆ files (snd r).
Proof.
  intros Hfmt Hlow r temp. subst r.
  assert (H : files (snd (handle_take_screenshot_and_copy_to_clipboard E args w)) = files w
              \/ files (snd (handle_take_screenshot_and_copy_to_clipboard E args w))
                 = files w ∖ {[ temp ]}).
  2:{ destruct H as [-> | ->]; (split; [|]); intros x; rewrite ?elem_of_difference; tauto. }
  pose proof (device_of_args_world E args w) as [Hf Hc].
  destruct (device_of_args E args w) as [[device_id|e] w0] eqn:Hdev; cbn [snd] in Hf, Hc.
  2:{ left. unfold handle_take_screenshot_and_copy_to_clipboard.
      unfold bind at 1. rewrite Hdev. exact Hf. }
  right.
  unfold handle_take_screenshot_and_copy_to_clipboard.
  unfold bind at 1. rewrite Hdev.
  rewrite Hfmt. cbn [py_lower]. rewrite Hlow.
  unfold bind at 1, ret at 1.
  unfold bind at 1, create_temp_file_path, bind at 1, loop_time_ms, ret at 1.
  cbv beta iota zeta.
  rewrite try_finally_cleanup.
  rewrite Hc.
  change (get_file_extension "png") with ".png".
  change ("." ++ "png") with ".png".
  fold temp.
  rewrite (replace_same temp ".png") by discriminate.
  cbn [files spawned clock_reads].
  unfold try_except, bind at 1, create_subprocess_shell.
  cbn [files spawned clock_reads].
  destruct (env_spawn E (spawned w0) (screencap_command device_id temp)) as [why|rc out err].
  { cbn. rewrite Hf. reflexivity. }
  assert (Hsame : forall F : gset string,
             F ∖ {[ temp ]} = files w ∖ {[ temp ]} ->
             forall sp cl,
             files (snd (match
                 bind (when (negb (rc =? 0)%Z) (raise (Exception "Failed to take screenshot")))
                   (fun _ =>
                      bind (os_rename temp temp)
                        (fun _ =>
                           bind (copy_image_to_clipboard E temp "png")
                             (fun _ => ret (one_text ("Screenshot copied to clipboard in "
                                                      ++ "png" ++ " format")))))
                   (mkWorld F sp cl)
               with
               | (Returned a, w') => (Returned a, w')
               | (Raised e, w') =>
                   raise (Exception ("Failed to take screenshot: " ++ str_exn e)) w'
               end)) ∖ {[ temp ]} = files w ∖ {[ temp ]}).
  { intros F HF sp cl. unfold when.
    destruct (negb (rc =? 0)%Z); [exact HF|].
    unfold bind at 1, ret at 1.
    unfold bind at 1, os_rename, bind at 1, get_world, set_files.
    cbn [files spawned clock_reads].
    destruct (bool_decide (temp ∈ F)) eqn:Hin; [|exact HF].
    cbn [fst snd].
    unfold bind. cbn [files spawned clock_reads].
    pose proof (copy_image_to_clipboard_files E temp "png"
                  (mkWorld ({[ temp ]} ∪ F ∖ {[ temp ]}) sp cl)) as Hcp.
    destruct (copy_image_to_clipboard E temp "png"
                (mkWorld ({[ temp ]} ∪ F ∖ {[ temp ]}) sp cl)) as [[u|e] w2];
      unfold ret, raise; cbn [snd files] in Hcp |- *; rewrite Hcp; rewrite <- HF;
      apply set_eq; intros x;
      rewrite !elem_of_difference, elem_of_union, elem_of_difference, !elem_of_singleton;
      tauto. }
  destruct (env_redirects E (spawned w0) (screencap_command device_id temp)).
  - apply Hsame. rewrite Hf.
    apply set_eq; intros x.
    rewrite !elem_of_difference, elem_of_union, !elem_of_singleton. tauto.
  - apply Hsame. rewrite Hf. reflexivity.
Qed.

Lemma clipboard_png_leaves_no_file_witness :
  files (snd (handle_take_screenshot_and_copy_to_clipboard
                (bridge_env (fun _ => rejected "error: device offline")) shell_ls_args
                fresh_world))
  ⊆ files fresh_world.
Proof.
  apply (clipboard_png_leaves_no_file (bridge_env (fun _ => rejected "error: device offline"))
           shell_ls_args fresh_world "png").
  - vm_compute. reflexivity.
  - reflexivity.
Defined.

(** ** Composite operations and launching *)




(** X11. A failure of the primary action ends [force_restart_app] and
    [clear_cache_and_restart] at once: the call raises that very exception
    and no launch is attempted, the primary command being the last one
    run. *)
Theorem primary_action_failure_escalates
    (E : Env) (args : gmap string pyval) (device_id : pyval) (w w0 : World) (e : exn) :
  is_str (args_get args "package_name") = true ->
  device_of_args E args w = (Returned device_id, w0) ->
  let package_name := args_str args "package_name" in
  (fst (execute_adb_command E ("shell am force-stop " ++ package_name) device_id w0)
   = Raised e ->
   handle_force_restart_app E args w
   = (Raised e,
      after_spawn (full_command ("shell am force-stop " ++ package_name) device_id) w0))
  /\ (fst (execute_adb_command E ("shell pm clear " ++ package_name) device_id w0)
      = Raised e ->
      handle_clear_cache_and_restart E args w
      = (Raised e,
         after_spawn (full_command ("shell pm clear " ++ package_name) device_id) w0)).
Proof.
  intros Hstr Hdev package_name. split; intros Hprimary.
  - destruct (execute_adb_command_raised_world E _ _ _ (ex_intro _ e Hprimary)) as [e' He'].
    assert (e' = e) by (rewrite He' in Hprimary; cbn in Hprimary; congruence). subst e'.
    unfold handle_force_restart_app. rewrite Hstr. cbn [negb].
    unfold bind at 1. rewrite Hdev.
    fold package_name. cbv zeta.
    unfold bind at 1. rewrite He'. reflexivity.
  - destruct (execute_adb_command_raised_world E _ _ _ (ex_intro _ e Hprimary)) as [e' He'].
    assert (e' = e) by (rewrite He' in Hprimary; cbn in Hprimary; congruence). subst e'.
    unfold handle_clear_cache_and_restart. rewrite Hstr. cbn [negb].
    unfold bind at 1. rewrite Hdev.
    fold package_name. cbv zeta.
    unfold bind at 1. rewrite He'. reflexivity.
Qed.

Lemma primary_action_failure_escalates_witness :
  handle_clear_cache_and_restart offline_env clear_app_args fresh_world
  = (Raised (BridgeError "ADB command failed: error: device offline"),
     after_spawn "adb shell pm clear com.example.app" fresh_world).
Proof.
  apply (proj2 (primary_action_failure_escalates offline_env clear_app_args PNone
                  fresh_world fresh_world
                  (BridgeError "ADB command failed: error: device offline")
                  ltac:(vm_compute; reflexivity) ltac:(vm_compute; reflexivity))).
  vm_compute. reflexivity.
Defined.

(** X12. [launch_app] stops at the first attempt that works. When the
    launcher trigger succeeds it is the only command run; when it fails and
    the query for the main entry yields a component whose start succeeds,
    the call returns "App launched with activity: " and that component,
    and the first failure is forgotten. *)
Theorem launch_app_succeeds_on_either_attempt
    (E : Env) (args : gmap string pyval) (device_id : pyval) (w w0 : World) :
  is_str (args_get args "package_name") = true ->
  device_of_args E args w = (Returned device_id, w0) ->
  let package_name := args_str args "package_name" in
  (forall output w1,
      execute_adb_command E (monkey_command package_name) device_id w0
      = (Returned output, w1) ->
      handle_launch_app E args w
      = (Returned (one_text ("App launched: " ++ package_name ++ nl ++ output)),
         after_spawn (full_command (monkey_command package_name) device_id) w0))
  /\ (forall e w1 package_info w2 activity output w3,
        execute_adb_command E (monkey_command package_name) device_id w0 = (Raised e, w1) ->
        execute_adb_command E (dumpsys_command package_name) device_id w1
        = (Returned package_info, w2) ->
        Re.search_component package_info = Some activity ->
        execute_adb_command E (am_start_command activity) device_id w2
        = (Returned output, w3) ->
        handle_launch_app E args w
        = (Returned (one_text ("App launched with activity: " ++ activity ++ nl ++ output)),
           w3)).
Proof.
  intros Hstr Hdev package_name. split.
  - intros output w1 H1.
    pose proof (execute_adb_command_world E (monkey_command package_name) device_id w0) as Hw.
    rewrite H1 in Hw. cbn [snd] in Hw. subst w1.
    unfold handle_launch_app. rewrite Hstr. cbn [negb].
    unfold bind at 1. rewrite Hdev.
    fold package_name. cbv zeta.
    unfold try_except at 1, bind at 1. rewrite H1. reflexivity.
  - intros e w1 package_info w2 activity output w3 H1 H2 Hs H3.
    unfold handle_launch_app. rewrite Hstr. cbn [negb].
    unfold bind at 1. rewrite Hdev.
    fold package_name. cbv zeta.
    unfold try_except at 1, bind at 1. rewrite H1.
    unfold try_except, bind. rewrite H2. rewrite Hs. rewrite H3. reflexivity.
Qed.

Lemma launch_app_succeeds_on_either_attempt_witness :
  exists w3,
    handle_launch_app fallback_launch_env clear_app_args fresh_world
    = (Returned (one_text ("App launched with activity: com.example.app/.MainActivity" ++ nl
                           ++ "Starting: Intent { cmp=com.example.app/.MainActivity }")),
       w3).
Proof.
  eexists.
  eapply (proj2 (launch_app_succeeds_on_either_attempt fallback_launch_env clear_app_args
                   PNone fresh_world fresh_world
                   ltac:(vm_compute; reflexivity) ltac:(vm_compute; reflexivity))).
  - vm_compute. reflexivity.
  - vm_compute. reflexivity.
  - vm_compute. reflexivity.
  - vm_compute. reflexivity.
Defined.

(** ** The component reference *)

Lemma all_token_app (a b : string) :
  all_token (a ++ b) = all_token a && all_token b.
Proof.
  induction a as [|c a IH]; [reflexivity|].
  change (all_token (String c a ++ b)) with (Re.is_token_char c && all_token (a ++ b)).
  rewrite IH. cbn [all_token]. apply andb_assoc.
Qed.

Lemma take_token_split (s : string) :
  all_token (Re.take_token s) = true
  /\ exists rest, s = Re.take_token s ++ rest.
Proof.
  induction s as [|c s [IHt [rest IHr]]].
  - split; [reflexivity|]. exists "". reflexivity.
  - cbn [Re.take_token]. destruct (Re.is_token_char c) eqn:Hc.
    + split; [cbn [all_token]; rewrite Hc; exact IHt|].
      exists rest.
      change (String c (Re.take_token s) ++ rest) with (String c (Re.take_token s ++ rest)).
      rewrite <- IHr. reflexivity.
    + split; [reflexivity|]. exists (String c s). reflexivity.
Qed.

Lemma app_cons_assoc (cur : string) (c : ascii) (s : string) :
  (cur ++ String c "") ++ s = cur ++ String c s.
Proof. rewrite string_app_assoc. reflexivity. Qed.

Lemma search_from_sound (s : string) :
  forall cur c,
    all_token cur = true ->
    Re.search_from cur s = Some c ->
    exists a b pre post,
      c = a ++ "/" ++ b /\ a <> "" /\ b <> ""
      /\ all_token a = true /\ all_token b = true
      /\ cur ++ s = pre ++ c ++ post.
Proof.
  induction s as [|c0 s IH]; intros cur c Hcur H; [discriminate H|].
  cbn [Re.search_from] in H.
  destruct (Re.is_token_char c0) eqn:Htok.
  - destruct (IH (cur ++ String c0 "") c) as (a & b & pre & post & Hc & Ha & Hb & Hta & Htb & Heq).
    + rewrite all_token_app, Hcur. cbn [all_token]. rewrite Htok. reflexivity.
    + exact H.
    + exists a, b, pre, post. rewrite app_cons_assoc in Heq. auto 10.
  - destruct (Ascii.eqb c0 "/" && negb (PyStr.is_empty cur)) eqn:Hslash.
    + apply andb_true_iff in Hslash. destruct Hslash as [Hc0 Hne].
      apply Ascii.eqb_eq in Hc0. subst c0.
      destruct (take_token_split s) as [Ht [rest Hrest]].
      destruct (PyStr.is_empty (Re.take_token s)) eqn:Hemp.
      * destruct (IH "" c eq_refl H) as (a & b & pre & post & Hc & Ha & Hb & Hta & Htb & Heq).
        exists a, b, (cur ++ "/" ++ pre), post.
        repeat (split; [assumption|]).
        change ("" ++ s) with s in Heq. rewrite Heq.
        rewrite !string_app_assoc. reflexivity.
      * inversion H; subst c.
        exists cur, (Re.take_token s), "", rest.
        split; [reflexivity|].
        split; [destruct cur; [discriminate Hne|discriminate]|].
        split; [destruct (Re.take_token s); [discriminate Hemp|discriminate]|].
        split; [exact Hcur|]. split; [exact Ht|].
        change ("" ++ (cur ++ "/" ++ Re.take_token s) ++ rest)
          with ((cur ++ "/" ++ Re.take_token s) ++ rest).
        rewrite !string_app_assoc. rewrite <- Hrest. reflexivity.
    + destruct (IH "" c eq_refl H) as (a & b & pre & post & Hc & Ha & Hb & Hta & Htb & Heq).
      exists a, b, (cur ++ String c0 "" ++ pre), post.
      repeat (split; [assumption|]).
      change ("" ++ s) with s in Heq. rewrite Heq.
      rewrite !string_app_assoc. reflexivity.
Qed.

Lemma search_from_no_slash (s : string) :
  Posix.has_slash s = false -> forall cur, Re.search_from cur s = None.
Proof.
  induction s as [|c s IH]; intros H cur; [reflexivity|].
  cbn [Posix.has_slash] in H. apply orb_false_iff in H. destruct H as [Hc Hs].
  cbn [Re.search_from].
  destruct (Re.is_token_char c); [apply IH; exact Hs|].
  unfold Posix.slash in Hc. rewrite Hc. cbn [andb]. apply IH. exact Hs.
Qed.

(** X13. The component reference that the launch fallback extracts is always
    taken from the text it searches and always has the shape name/name: two
    non-empty runs of letters, digits, underscores and dots around one
    slash. A text without a slash yields no component. *)
Theorem search_component_sound (s : string) :
  (forall c, Re.search_component s = Some c ->
             exists a b pre post,
               c = a ++ "/" ++ b /\ a <> "" /\ b <> ""
               /\ all_token a = true /\ all_token b = true
               /\ s = pre ++ c ++ post)
  /\ (Posix.has_slash s = false -> Re.search_component s = None).
Proof.
  split.
  - intros c H. apply (search_from_sound s "" c eq_refl H).
  - intros H. apply (search_from_no_slash s H).
Qed.

Lemma search_component_sound_witness :
  (exists a b pre post,
      "com.example.app/.MainActivity" = a ++ "/" ++ b /\ a <> "" /\ b <> ""
      /\ all_token a = true /\ all_token b = true
      /\ "  a1b2 com.example.app/.MainActivity filter" = pre ++ "com.example.app/.MainActivity" ++ post)
  /\ Re.search_component "no component here" = None.
Proof.
  split.
  - apply (proj1 (search_component_sound "  a1b2 com.example.app/.MainActivity filter")).
    reflexivity.
  - apply (proj2 (search_component_sound "no component here")). reflexivity.
Defined.

(** ** Packages, transfers and captures *)





(** X15. [adb_push] does not run the bridge for a local file that is not
    there: when nothing exists at the resolved local path, the call fails
    with "Local file does not exist: " and that path, and no push command
    has been run. *)
Theorem push_requires_the_local_file
    (E : Env) (args : gmap string pyval) (device_id : pyval) (w w0 : World) :
  is_str (args_get args "local_path") = true ->
  is_str (args_get args "remote_path") = true ->
  device_of_args E args w = (Returned device_id, w0) ->
  let resolved := resolve_path E (args_str args "local_path") in
  resolved ∉ files w ->
  env_isdir E resolved = false ->
  handle_adb_push E args w
  = (Raised (Exception ("Local file does not exist: " ++ resolved)), w0).
Proof.
  intros Hl Hr Hdev resolved Hfile Hdir.
  pose proof (device_of_args_world E args w) as [Hf _].
  rewrite Hdev in Hf. cbn [snd] in Hf.
  unfold handle_adb_push. rewrite Hl, Hr. cbn [negb orb].
  unfold bind at 1. rewrite Hdev.
  fold resolved. cbv zeta.
  unfold bind at 1, os_path_exists.
  rewrite Hf. rewrite bool_decide_eq_false_2 by exact Hfile.
  rewrite Hdir. reflexivity.
Qed.

Lemma push_requires_the_local_file_witness :
  handle_adb_push one_device_env push_args fresh_world
  = (Raised (Exception "Local file does not exist: /home/user/builds/app.apk"), fresh_world).
Proof.
  apply (push_requires_the_local_file one_device_env push_args PNone fresh_world fresh_world).
  - vm_compute. reflexivity.
  - vm_compute. reflexivity.
  - vm_compute. reflexivity.
  - apply not_elem_of_empty.
  - reflexivity.
Defined.

Lemma prepare_directory_not_creatable (E : Env) (dir why : string) (w : World) :
  env_makedirs E dir = Some why ->
  prepare_directory E dir w
  = (Raised (Exception ("Failed to create directory: " ++ why)), w).
Proof.
  intros Hmk. unfold prepare_directory, bind, try_except, os_makedirs.
  rewrite Hmk. reflexivity.
Qed.

Lemma prepare_directory_not_writable (E : Env) (dir : string) (w : World) :
  env_makedirs E dir = None ->
  env_can_write E (Posix.join dir
                     (".write-test-" ++ PyStr.of_Z (env_clock_ms E (clock_reads w)))) = false ->
  prepare_directory E dir w
  = (Raised (Exception ("Directory is not writable: " ++ dir ++ "." ++ path_advice)),
     mkWorld (files w) (spawned w) (S (clock_reads w))).
Proof.
  intros Hmk Hcw.
  unfold prepare_directory, bind, try_except, os_makedirs, is_directory_writable,
    try_except, bind, os_makedirs, loop_time_ms, write_file.
  rewrite Hmk. unfold ret. cbv beta iota. cbn [files spawned clock_reads].
  rewrite Hcw. reflexivity.
Qed.

Lemma prepare_directory_ready (E : Env) (dir : string) (w : World) :
  env_makedirs E dir = None ->
  env_can_write E (Posix.join dir
                     (".write-test-" ++ PyStr.of_Z (env_clock_ms E (clock_reads w)))) = true ->
  prepare_directory E dir w
  = (Returned tt,
     mkWorld (files w ∖ {[ Posix.join dir
                             (".write-test-"
                              ++ PyStr.of_Z (env_clock_ms E (clock_reads w))) ]})
       (spawned w) (S (clock_reads w))).
Proof.
  intros Hmk Hcw.
  unfold prepare_directory, bind, try_except, os_makedirs, is_directory_writable,
    try_except, bind, os_makedirs, loop_time_ms, write_file.
  rewrite Hmk. unfold ret. cbv beta iota. cbn [files spawned clock_reads].
  rewrite Hcw.
  unfold bind, get_world, set_files, os_unlink, bind, get_world, set_files.
  cbv beta iota. cbn [files spawned clock_reads fst snd].
  rewrite bool_decide_eq_true_2
    by (apply elem_of_union; left; apply elem_of_singleton; reflexivity).
  cbv beta iota. cbn [when negb files spawned clock_reads].
  f_equal. f_equal. apply set_eq. intros x.
  rewrite !elem_of_difference, elem_of_union, !elem_of_singleton. tauto.
Qed.

(** X16. [adb_pull] runs no bridge command for a target it cannot write to.
    When the directory of the resolved local path cannot be created, the
    call fails with "Failed to create directory: "; when it exists and the
    probe file cannot be written, it fails with "Directory is not writable: "
    and the advice to use an absolute path. In both cases no file has been
    touched and no pull has been run. *)
Theorem pull_needs_a_writable_directory
    (E : Env) (args : gmap string pyval) (device_id : pyval) (w w0 : World) :
  is_str (args_get args "remote_path") = true ->
  is_str (args_get args "local_path") = true ->
  device_of_args E args w = (Returned device_id, w0) ->
  let local_dir := Posix.dirname (resolve_path E (args_str args "local_path")) in
  (forall why, env_makedirs E local_dir = Some why ->
               handle_adb_pull E args w
               = (Raised (Exception ("Failed to create directory: " ++ why)), w0))
  /\ (env_makedirs E local_dir = None ->
      env_can_write E (Posix.join local_dir
                         (".write-test-" ++ PyStr.of_Z (env_clock_ms E (clock_reads w0))))
      = false ->
      handle_adb_pull E args w
      = (Raised (Exception ("Directory is not writable: " ++ local_dir ++ "."
                            ++ " Try using an absolute path or a path in your home directory.")),
         mkWorld (files w0) (spawned w0) (S (clock_reads w0)))).
Proof.
  intros Hr Hl Hdev local_dir. split.
  - intros why Hmk.
    unfold handle_adb_pull. rewrite Hr, Hl. cbn [negb orb].
    unfold bind at 1. rewrite Hdev.
    fold local_dir. cbv zeta.
    unfold bind at 1.
    rewrite (prepare_directory_not_creatable E local_dir why w0 Hmk). reflexivity.
  - intros Hmk Hcw.
    unfold handle_adb_pull. rewrite Hr, Hl. cbn [negb orb].
    unfold bind at 1. rewrite Hdev.
    fold local_dir. cbv zeta.
    unfold bind at 1.
    rewrite (prepare_directory_not_writable E local_dir w0 Hmk Hcw). reflexivity.
Qed.

Lemma pull_needs_a_writable_directory_witness :
  handle_adb_pull read_only_env pull_args fresh_world
  = (Raised (Exception
       "Directory is not writable: /home/user/logs. Try using an absolute path or a path in your home directory."),
     mkWorld ∅ [] 1).
Proof.
  apply (proj2 (pull_needs_a_writable_directory read_only_env pull_args PNone
                  fresh_world fresh_world
                  ltac:(vm_compute; reflexivity) ltac:(vm_compute; reflexivity)
                  ltac:(vm_compute; reflexivity))).
  - reflexivity.
  - reflexivity.
Defined.

(** X17. [take_screenshot_and_save] with the format png (the default) and no
    device identifier, into a directory that can be written: when the
    capture exits with status zero the call reports the resolved path, runs
    the capture command and nothing else, converts nothing, and the one file
    it adds is the capture at the resolved path; when the capture exits
    non-zero the message repeats itself, "Failed to take screenshot: Failed
    to take screenshot.", followed by the advice on paths. *)
Theorem save_png_keeps_the_capture
    (E : Env) (args : gmap string pyval) (w : World) (f : string)
    (rc : Z) (out err : decoded) :
  is_str (args_get args "output_path") = true ->
  truthy (args_get args "device_id") = false ->
  args_get_default args "format" (PStr "png") = PStr f ->
  PyStr.lower f = "png" ->
  let resolved := resolve_path E (args_str args "output_path") in
  let probe := Posix.join (Posix.dirname resolved)
                 (".write-test-" ++ PyStr.of_Z (env_clock_ms E (clock_reads w))) in
  let cmd := "adb exec-out screencap -p > " ++ dq ++ resolved ++ dq in
  env_makedirs E (Posix.dirname resolved) = None ->
  env_can_write E probe = true ->
  env_spawn E (spawned w) cmd = Exited rc out err ->
  (rc = 0%Z -> env_redirects E (spawned w) cmd = true ->
   handle_take_screenshot_and_save E args w
   = (Returned (one_text ("Screenshot saved to: " ++ resolved ++ " in png format")),
      mkWorld ({[ resolved ]} ∪ files w ∖ {[ probe ]}) (spawned w ++ [cmd])
        (S (clock_reads w))))
  /\ (rc <> 0%Z ->
      fst (handle_take_screenshot_and_save E args w)
      = Raised (Exception
                  ("Failed to take screenshot: Failed to take screenshot."
                   ++ " Try using an absolute path or a path in your home directory."))).
Proof.
  intros Hstr Hdev Hfmt Hlow resolved probe cmd Hmk Hcw Hs.
  assert (Hcmd : screencap_command (args_get args "device_id") resolved = cmd).
  { unfold screencap_command. rewrite Hdev. reflexivity. }
  assert (Hunfold :
    handle_take_screenshot_and_save E args w
    = try_except
        (process <- create_subprocess_shell E cmd (Some resolved) ;;
         let '(returncode, _, _) := process in
         when (negb (returncode =? 0)%Z) (raise (Exception "Failed to take screenshot")) ;;;
         format_name <- py_lower (args_get_default args "format" (PStr "png")) ;;
         final_path <-
           (if negb (String.eqb format_name "png") then
              convert_image_format E resolved
                (PyStr.replace resolved ".png" (get_file_extension format_name)) format_name ;;;
              os_unlink resolved ;;;
              ret (PyStr.replace resolved ".png" (get_file_extension format_name))
            else ret resolved) ;;
         ret (one_text ("Screenshot saved to: " ++ final_path ++ " in " ++ format_name
                        ++ " format")))
        (fun e => raise (Exception ("Failed to take screenshot: " ++ str_exn e ++ "."
                                    ++ path_advice)))
        (mkWorld (files w ∖ {[ probe ]}) (spawned w) (S (clock_reads w)))).
  { unfold handle_take_screenshot_and_save. rewrite Hstr. cbn [negb].
    cbv zeta. rewrite Hdev.
    unfold bind at 1, ret at 1.
    fold resolved.
    unfold bind at 1.
    rewrite (prepare_directory_ready E (Posix.dirname resolved) w Hmk Hcw).
    fold probe. rewrite Hcmd. reflexivity. }
  rewrite Hunfold. clear Hunfold.
  unfold try_except, bind, create_subprocess_shell.
  cbn [files spawned clock_reads]. rewrite Hs.
  split.
  - intros -> Hred. rewrite Hred.
    change (negb (0 =? 0)%Z) with false.
    unfold when, ret.
    rewrite Hfmt. cbn [py_lower]. unfold ret. rewrite Hlow.
    reflexivity.
  - intros Hrc. apply Z.eqb_neq in Hrc. rewrite Hrc. reflexivity.
Qed.

Lemma save_png_keeps_the_capture_witness :
  handle_take_screenshot_and_save (bridge_env (fun _ => accepted "")) save_png_args fresh_world
  = (Returned (one_text "Screenshot saved to: /home/user/shots/screen.png in png format"),
     mkWorld ({[ "/home/user/shots/screen.png" ]} ∪ ∅ ∖ {[ "/home/user/shots/.write-test-52000" ]})
       ["adb exec-out screencap -p > " ++ dq ++ "/home/user/shots/screen.png" ++ dq] 1).
Proof.
  apply (proj1 (save_png_keeps_the_capture (bridge_env (fun _ => accepted "")) save_png_args
                  fresh_world "png" 0%Z (Text "") (Text "")
                  ltac:(vm_compute; reflexivity) ltac:(vm_compute; reflexivity)
                  ltac:(vm_compute; reflexivity) ltac:(reflexivity)
                  ltac:(reflexivity) ltac:(reflexivity) ltac:(reflexivity)));
    reflexivity.
Defined.

(** ** The bridge executor and the device listing, further *)



Lemma lstrip_idempotent (s : string) : PyStr.lstrip (PyStr.lstrip s) = PyStr.lstrip s.
Proof.
  induction s as [|c s IH]; [reflexivity|].
  cbn [PyStr.lstrip]. destruct (PyStr.is_space c) eqn:Hc; [exact IH|].
  cbn [PyStr.lstrip]. rewrite Hc. reflexivity.
Qed.

Lemma rstrip_idempotent (s : string) : PyStr.rstrip (PyStr.rstrip s) = PyStr.rstrip s.
Proof.
  induction s as [|c s IH]; [reflexivity|].
  cbn [PyStr.rstrip].
  destruct (PyStr.is_space c && PyStr.is_empty (PyStr.rstrip s)) eqn:Hc; [reflexivity|].
  cbn [PyStr.rstrip]. rewrite IH, Hc. reflexivity.
Qed.

Lemma rstrip_lstrip (t : string) :
  PyStr.rstrip t = t -> PyStr.rstrip (PyStr.lstrip t) = PyStr.lstrip t.
Proof.
  induction t as [|c t IH]; [reflexivity|].
  intros H. cbn [PyStr.rstrip] in H.
  destruct (PyStr.is_space c && PyStr.is_empty (PyStr.rstrip t)) eqn:Hc; [discriminate H|].
  inversion H as [Ht]. rewrite Ht in Hc.
  cbn [PyStr.lstrip]. destruct (PyStr.is_space c) eqn:Hsp.
  - rewrite ?Ht. apply IH. exact Ht.
  - rewrite ?Ht. cbn [PyStr.rstrip]. rewrite Ht, Hsp. reflexivity.
Qed.

Lemma strip_idempotent (s : string) : PyStr.strip (PyStr.strip s) = PyStr.strip s.
Proof.
  unfold PyStr.strip.
  rewrite (rstrip_lstrip (PyStr.rstrip s) (rstrip_idempotent s)).
  apply lstrip_idempotent.
Qed.

(** X19. What [execute_adb_command] returns is the standard output of the
    process without the white space around it: trimming it again changes
    nothing. *)
Theorem execute_adb_command_returns_trimmed
    (E : Env) (command : string) (device_id : pyval) (w : World) (output : string) :
  fst (execute_adb_command E command device_id w) = Returned output ->
  PyStr.strip output = output
  /\ exists rc raw err,
       env_spawn E (spawned w) (full_command command device_id) = Exited rc (Text raw) err
       /\ output = PyStr.strip raw.
Proof.
  intros H.
  assert (Hraw : exists rc raw err,
             env_spawn E (spawned w) (full_command command device_id)
             = Exited rc (Text raw) err /\ output = PyStr.strip raw).
  { revert H.
    unfold execute_adb_command, try_except, bind, create_subprocess_shell.
    destruct (env_spawn E (spawned w) (full_command command device_id))
      as [why|rc out err]; [discriminate|].
    cbv beta iota.
    destruct (negb (rc =? 0)%Z).
    - destruct err as [e|why]; [|discriminate].
      unfold decode, bind, ret, when.
      destruct (negb (PyStr.is_empty (PyStr.strip e))
                && negb (PyStr.contains "Warning" (PyStr.strip e))); [discriminate|].
      destruct out as [o|why]; [|discriminate].
      intros H. inversion H. eauto.
    - unfold decode, bind, ret.
      destruct out as [o|why]; [|discriminate].
      intros H. inversion H. eauto. }
  split; [|exact Hraw].
  destruct Hraw as (rc & raw & err & _ & ->). apply strip_idempotent.
Qed.

Lemma execute_adb_command_returns_trimmed_witness :
  PyStr.strip "emulator-5554" = "emulator-5554".
Proof.
  apply (proj1 (execute_adb_command_returns_trimmed
                  (bridge_env (fun _ => accepted ("  emulator-5554 " ++ nl)))
                  "get-serialno" PNone fresh_world "emulator-5554"
                  ltac:(vm_compute; reflexivity))).
Defined.

Lemma blank_free_app (a b : string) :
  blank_free (a ++ b) = blank_free a && blank_free b.
Proof.
  induction a as [|c a IH]; [reflexivity|].
  change (blank_free (String c a ++ b)) with (negb (PyStr.is_space c) && blank_free (a ++ b)).
  rewrite IH. cbn [blank_free]. apply andb_assoc.
Qed.

Lemma split_ws_from_tokens (s : string) :
  forall cur, blank_free cur = true -> Forall token_ok (PyStr.split_ws_from cur s).
Proof.
  induction s as [|c s IH]; intros cur Hcur.
  - cbn [PyStr.split_ws_from]. destruct cur as [|c0 cur]; cbn [PyStr.is_empty].
    + constructor.
    + constructor; [|constructor]. split; [discriminate|exact Hcur].
  - cbn [PyStr.split_ws_from]. destruct (PyStr.is_space c) eqn:Hc.
    + destruct cur as [|c0 cur]; cbn [PyStr.is_empty].
      * apply IH. reflexivity.
      * constructor; [split; [discriminate|exact Hcur]|]. apply IH. reflexivity.
    + apply IH. rewrite blank_free_app, Hcur. cbn [blank_free]. rewrite Hc. reflexivity.
Qed.

Lemma parse_device_line_tokens (line : string) :
  Forall (fun d => token_ok (dev_id d) /\ token_ok (dev_state d)) (parse_device_line line).
Proof.
  unfold parse_device_line, PyStr.split_ws.
  pose proof (split_ws_from_tokens (PyStr.strip line) "" eq_refl) as H.
  destruct (PyStr.split_ws_from "" (PyStr.strip line)) as [|i [|s rest]];
    [constructor|constructor|].
  inversion H as [|? ? Hi H']. inversion H' as [|? ? Hs _].
  constructor; [split; assumption|constructor].
Qed.

(** X20. Every device [get_connected_devices] lists has a serial number and
    a state that are not empty and hold no white space, whatever the bridge
    printed; so no listed serial number is the empty string. *)
Theorem listed_devices_are_tokens (E : Env) (w w' : World) (devices : list Device) :
  get_connected_devices E w = (Returned devices, w') ->
  Forall (fun d => token_ok (dev_id d) /\ token_ok (dev_state d)) devices.
Proof.
  unfold get_connected_devices, bind.
  destruct (execute_adb_command E "devices" PNone w) as [[output|e] w1]; [|discriminate].
  intros H. inversion H. subst. clear H.
  induction (List.tl (PyStr.split_on "010"%char output)) as [|line lines IH].
  - constructor.
  - cbn [List.map List.concat]. apply Forall_app. split; [|exact IH].
    apply parse_device_line_tokens.
Qed.

Lemma listed_devices_are_tokens_witness :
  Forall (fun d => token_ok (dev_id d) /\ token_ok (dev_state d))
    [mkDevice "emulator-5554" "device"; mkDevice "R58M123ABC" "device"].
Proof.
  apply (listed_devices_are_tokens two_devices_env fresh_world
           (after_spawn "adb devices" fresh_world)).
  vm_compute. reflexivity.
Defined.

Lemma lacks_app (c : ascii) (a b : string) : lacks c (a ++ b) = lacks c a && lacks c b.
Proof.
  induction a as [|x a IH]; [reflexivity|].
  change (lacks c (String x a ++ b)) with (negb (Ascii.eqb x c) && lacks c (a ++ b)).
  rewrite IH. cbn [lacks]. apply andb_assoc.
Qed.

Lemma split_on_lacks (sep : ascii) (x : string) :
  lacks sep x = true -> PyStr.split_on sep x = [x].
Proof.
  induction x as [|c x IH]; [reflexivity|].
  cbn [lacks]. intros H. apply andb_true_iff in H. destruct H as [Hc Hx].
  apply negb_true_iff in Hc.
  cbn [PyStr.split_on]. rewrite Hc, (IH Hx). reflexivity.
Qed.

Lemma split_on_app_sep (sep : ascii) (x rest : string) :
  lacks sep x = true ->
  PyStr.split_on sep (x ++ String sep rest) = x :: PyStr.split_on sep rest.
Proof.
  induction x as [|c x IH].
  - intros _. change ("" ++ String sep rest) with (String sep rest).
    cbn [PyStr.split_on]. rewrite Ascii.eqb_refl. reflexivity.
  - cbn [lacks]. intros H. apply andb_true_iff in H. destruct H as [Hc Hx].
    apply negb_true_iff in Hc.
    change (String c x ++ String sep rest) with (String c (x ++ String sep rest)).
    cbn [PyStr.split_on]. rewrite Hc, (IH Hx). reflexivity.
Qed.

Lemma split_on_join_lines (sep : ascii) (x : string) (l : list string) :
  Forall (fun y => lacks sep y = true) (x :: l) ->
  PyStr.split_on sep (PyStr.join (String sep "") (x :: l)) = x :: l.
Proof.
  revert x. induction l as [|y l IH]; intros x H.
  - inversion H. cbn [PyStr.join]. apply split_on_lacks. assumption.
  - inversion H as [|? ? Hx Hl]. subst.
    change (PyStr.join (String sep "") (x :: y :: l))
      with (x ++ String sep (PyStr.join (String sep "") (y :: l))).
    rewrite (split_on_app_sep sep x _ Hx). rewrite (IH y Hl). reflexivity.
Qed.

Lemma rstrip_blank_free (b : string) : blank_free b = true -> PyStr.rstrip b = b.
Proof.
  induction b as [|c b IH]; [reflexivity|].
  cbn [blank_free]. intros H. apply andb_true_iff in H. destruct H as [Hc Hb].
  apply negb_true_iff in Hc. cbn [PyStr.rstrip]. rewrite Hc, (IH Hb). reflexivity.
Qed.

Lemma rstrip_app_token (a b : string) :
  token_ok b -> PyStr.rstrip (a ++ b) = a ++ b.
Proof.
  intros [Hne Hb]. induction a as [|c a IH].
  - apply rstrip_blank_free. exact Hb.
  - change (String c a ++ b) with (String c (a ++ b)).
    cbn [PyStr.rstrip]. rewrite IH.
    destruct (a ++ b) as [|c' r] eqn:Hab.
    + destruct a; [change ("" ++ b) with b in Hab; congruence|discriminate Hab].
    + cbn [PyStr.is_empty]. rewrite andb_false_r. reflexivity.
Qed.

Lemma lstrip_token_app (a b : string) :
  token_ok a -> PyStr.lstrip (a ++ b) = a ++ b.
Proof.
  intros [Hne Ha]. destruct a as [|c a]; [congruence|].
  cbn [blank_free] in Ha. apply andb_true_iff in Ha. destruct Ha as [Hc _].
  apply negb_true_iff in Hc.
  change (String c a ++ b) with (String c (a ++ b)).
  cbn [PyStr.lstrip]. rewrite Hc. reflexivity.
Qed.

Lemma split_ws_from_app (x rest : string) :
  blank_free x = true ->
  forall cur, PyStr.split_ws_from cur (x ++ rest) = PyStr.split_ws_from (cur ++ x) rest.
Proof.
  induction x as [|c x IH]; intros Hx cur.
  - change ("" ++ rest) with rest.
    replace (cur ++ "") with cur; [reflexivity|].
    clear. induction cur as [|c cur IH]; [reflexivity|].
    change (String c cur ++ "") with (String c (cur ++ "")). rewrite <- IH. reflexivity.
  - cbn [blank_free] in Hx. apply andb_true_iff in Hx. destruct Hx as [Hc Hx].
    apply negb_true_iff in Hc.
    change (String c x ++ rest) with (String c (x ++ rest)).
    cbn [PyStr.split_ws_from]. rewrite Hc.
    rewrite (IH Hx). rewrite app_cons_assoc. reflexivity.
Qed.

Lemma parse_device_line_of_device (d : Device) :
  token_ok (dev_id d) -> token_ok (dev_state d) ->
  parse_device_line (device_line d) = [d].
Proof.
  intros Hi Hs. destruct d as [i s]. cbn [dev_id dev_state] in *.
  unfold parse_device_line, device_line, PyStr.strip. cbn [dev_id dev_state].
  replace (i ++ tab ++ s) with ((i ++ tab) ++ s) by apply string_app_assoc.
  rewrite (rstrip_app_token (i ++ tab) s Hs).
  rewrite string_app_assoc.
  rewrite (lstrip_token_app i (tab ++ s) Hi).
  unfold PyStr.split_ws.
  destruct Hi as [Hine Hi]. destruct Hs as [Hsne Hs].
  rewrite (split_ws_from_app i (tab ++ s) Hi "").
  change ("" ++ i) with i.
  change (tab ++ s) with (String "009"%char s).
  cbn [PyStr.split_ws_from].
  change (PyStr.is_space "009"%char) with true. cbv iota.
  destruct i as [|ci i]; [congruence|]. cbn [PyStr.is_empty].
  replace s with (s ++ "") at 1.
  2:{ clear. induction s as [|c s IH]; [reflexivity|].
      change (String c s ++ "") with (String c (s ++ "")). rewrite IH. reflexivity. }
  rewrite (split_ws_from_app s "" Hs "").
  change ("" ++ s) with s. cbn [PyStr.split_ws_from].
  destruct s as [|cs s]; [congruence|]. reflexivity.
Qed.

Lemma device_line_lacks_newline (d : Device) :
  token_ok (dev_id d) -> token_ok (dev_state d) -> lacks "010"%char (device_line d) = true.
Proof.
  assert (H : forall x, blank_free x = true -> lacks "010"%char x = true).
  { induction x as [|c x IH]; [reflexivity|].
    cbn [blank_free lacks]. intros Hx. apply andb_true_iff in Hx. destruct Hx as [Hc Hx].
    rewrite (IH Hx), andb_true_r.
    destruct (Ascii.eqb_spec c "010"%char) as [->|]; [discriminate Hc|reflexivity]. }
  intros [_ Hi] [_ Hs]. unfold device_line.
  rewrite !lacks_app, (H _ Hi), (H _ Hs). reflexivity.
Qed.

(** X21. The listing is read back exactly: when the bridge prints a header
    line and then, for each device, its serial number, a tabulator and its
    state, [get_connected_devices] returns these devices, in that order,
    and drops the header whatever it says. *)
Theorem listing_round_trip
    (E : Env) (w w' : World) (header : string) (devices : list Device) :
  lacks "010"%char header = true ->
  Forall (fun d => token_ok (dev_id d) /\ token_ok (dev_state d)) devices ->
  execute_adb_command E "devices" PNone w
  = (Returned (PyStr.join nl (header :: List.map device_line devices)), w') ->
  get_connected_devices E w = (Returned devices, w').
Proof.
  intros Hh Hd Hexec.
  unfold get_connected_devices, bind. rewrite Hexec. clear Hexec.
  unfold ret. f_equal. f_equal.
  change nl with (String "010"%char "").
  rewrite split_on_join_lines.
  2:{ constructor; [exact Hh|].
      induction Hd as [|d l [Hi Hs] Hl IH]; [constructor|].
      constructor; [apply device_line_lacks_newline; assumption|exact IH]. }
  cbn [List.tl].
  induction Hd as [|d l [Hi Hs] Hl IH]; [reflexivity|].
  cbn [List.map List.concat].
  rewrite (parse_device_line_of_device d Hi Hs). rewrite IH. reflexivity.
Qed.

Lemma listing_round_trip_witness :
  get_connected_devices two_devices_env fresh_world
  = (Returned [mkDevice "emulator-5554" "device"; mkDevice "R58M123ABC" "device"],
     after_spawn "adb devices" fresh_world).
Proof.
  apply (listing_round_trip two_devices_env fresh_world (after_spawn "adb devices" fresh_world)
           "List of devices attached").
  - reflexivity.
  - repeat constructor; discriminate.
  - vm_compute. reflexivity.
Defined.

(** X22. Given a device identifier, [adb_shell] first lists the devices and
    then addresses exactly that device: when the identifier is listed, the
    one further command line is "adb -s ", the identifier, " shell " and the
    command, and its outcome is the outcome of the call; when it is not
    listed, the call fails with [DeviceNotFoundError] and the shell command
    is never run. *)
Theorem adb_shell_targets_the_given_device
    (E : Env) (args : gmap string pyval) (w w1 : World) (devices : list Device)
    (id : string) :
  is_str (args_get args "command") = true ->
  args_get args "device_id" = PStr id ->
  id <> "" ->
  get_connected_devices E w = (Returned devices, w1) ->
  devices <> [] ->
  let command := args_str args "command" in
  w1 = after_spawn "adb devices" w
  /\ (In id (List.map dev_id devices) ->
      handle_adb_shell E args w
      = (match fst (execute_adb_command E ("shell " ++ command) (PStr id) w1) with
         | Returned output => Returned (one_text output)
         | Raised e => Raised e
         end,
         after_spawn ("adb -s " ++ id ++ " shell " ++ command) w1))
  /\ (~ In id (List.map dev_id devices) ->
      handle_adb_shell E args w = (Raised (DeviceNotFoundError (PStr id)), w1)).
Proof.
  intros Hstr Hid Hne Hdevs Hnonempty command.
  assert (Ht : truthy (PStr id) = true) by (destruct id; [congruence|reflexivity]).
  assert (Hvalidate :
    validate_device_id E (PStr id) w
    = (if List.existsb (fun d => str_eq (dev_id d) (PStr id)) devices
       then Returned (PStr id) else Raised (DeviceNotFoundError (PStr id)), w1)).
  { unfold validate_device_id, bind. rewrite Hdevs.
    destruct devices as [|d0 rest]; [congruence|]. rewrite Ht.
    destruct (existsb _ _); reflexivity. }
  split.
  { pose proof (get_connected_devices_world E w) as Hw.
    rewrite Hdevs in Hw. exact Hw. }
  split.
  - intros Hin.
    assert (Hex : List.existsb (fun d => str_eq (dev_id d) (PStr id)) devices = true).
    { apply existsb_str_eq_iff. apply in_map_iff in Hin.
      destruct Hin as [d [<- Hd]]. exists d. split; [exact Hd|reflexivity]. }
    unfold handle_adb_shell. rewrite Hstr. cbn [negb].
    unfold bind at 1, device_of_args. rewrite Hid, Ht, Hvalidate, Hex.
    fold command.
    rewrite (bind_execute_world E ("shell " ++ command) (PStr id) one_text w1).
    unfold full_command. rewrite Ht. cbn [py_str].
    rewrite !string_app_assoc. reflexivity.
  - intros Hout.
    assert (Hex : List.existsb (fun d => str_eq (dev_id d) (PStr id)) devices = false).
    { destruct (List.existsb _ devices) eqn:Hex; [|reflexivity].
      exfalso. apply Hout. apply existsb_str_eq_iff in Hex.
      destruct Hex as [d [Hd Heq]]. inversion Heq. apply in_map. exact Hd. }
    unfold handle_adb_shell. rewrite Hstr. cbn [negb].
    unfold bind at 1, device_of_args. rewrite Hid, Ht, Hvalidate, Hex. reflexivity.
Qed.

Lemma adb_shell_targets_the_given_device_witness :
  handle_adb_shell two_devices_env shell_on_phone_args fresh_world
  = (Returned (one_text ""),
     after_spawn "adb -s R58M123ABC shell ls" (after_spawn "adb devices" fresh_world)).
Proof.
  destruct (adb_shell_targets_the_given_device two_devices_env shell_on_phone_args
              fresh_world (after_spawn "adb devices" fresh_world)
              [mkDevice "emulator-5554" "device"; mkDevice "R58M123ABC" "device"]
              "R58M123ABC"
              ltac:(vm_compute; reflexivity) ltac:(vm_compute; reflexivity)
              ltac:(discriminate) ltac:(vm_compute; reflexivity) ltac:(discriminate))
    as (_ & Hlisted & _).
  rewrite Hlisted; [vm_compute; reflexivity|].
  cbn. tauto.
Defined.
